(** * Boot notification e-mail: a model of [startup_boot_email.py]
      and of [pythonEmailNotify.py]

    The script gathers a few facts about the machine through PowerShell,
    renders them as HTML and sends them through SMTP.  Everything it does
    is either string building, branching on what came back, or a call to
    the outside world.  The model keeps the three apart:

    - text is a [string] of bytes (UTF-8), the built-ins of [str] that the
      script calls are written out in [Module Text];
    - what [json.loads] returns is a [PyVal];
    - the outside world is a [World]: the environment, the answers of the
      processes and SMTP sessions still to come, and a journal of what the
      script did to it.  Functions that touch it live in the monad [M];
    - the interpreter's libraries ([json], [datetime], [traceback], [repr])
      are the fields of the class [Interpreter], and the two .NET calls
      that the queries make on times those of the class [DotNet]: the
      properties hold for every instance. *)

From Stdlib Require Import ZArith String Ascii List Lia Bool DecimalString Floats.
From stdpp Require Import base gmap strings list.

Set Warnings "-register-all".

Open Scope string_scope.
Open Scope Z_scope.

(** * Text *)

Module Text.

(** The double quote and the line feed, which a literal cannot hold. *)
Definition dq : string := String (ascii_of_nat 34) EmptyString.
Definition nl : string := String (ascii_of_nat 10) EmptyString.
Definition cr : string := String (ascii_of_nat 13) EmptyString.

(** [str(n)] for an [int]. *)
Definition of_int (n : Z) : string := NilZero.string_of_int (Z.to_int n).

(** [sep.join(parts)]. *)
Definition join (sep : string) (parts : list string) : string :=
  String.concat sep parts.

(** [s.replace(c, by)] for a one-character [c]. *)
Fixpoint replace_char (c : ascii) (by_ : string) (s : string) : string :=
  match s with
  | EmptyString => EmptyString
  | String a rest =>
      if Ascii.eqb a c then by_ ++ replace_char c by_ rest
      else String a (replace_char c by_ rest)
  end.

(** White space as [str.strip] and [str.isspace] see it, on the UTF-8
    bytes of the text: [space_head s] is what follows a white-space
    character at the head of [s].  U+0009..U+000D, U+001C..U+0020,
    U+0085, U+00A0, U+1680, U+2000..U+200A, U+2028, U+2029, U+202F,
    U+205F, U+3000. *)
Definition ascii_space (a : ascii) : bool :=
  let n := nat_of_ascii a in
  ((9 <=? n) && (n <=? 13) || (28 <=? n) && (n <=? 32))%nat.

Definition space_head (s : string) : option string :=
  match s with
  | EmptyString => None
  | String a r =>
      if ascii_space a then Some r else
      match nat_of_ascii a, r with
      | 194%nat, String b r1 =>
          let m := nat_of_ascii b in
          if ((m =? 133) || (m =? 160))%nat then Some r1 else None
      | 225%nat, String b (String c r2) =>
          if ((nat_of_ascii b =? 154) && (nat_of_ascii c =? 128))%nat
          then Some r2 else None
      | 226%nat, String b (String c r2) =>
          let m := nat_of_ascii b in
          let k := nat_of_ascii c in
          if ((m =? 128) && ((128 <=? k) && (k <=? 138) || (k =? 168)
                             || (k =? 169) || (k =? 175))
              || (m =? 129) && (k =? 159))%nat
          then Some r2 else None
      | 227%nat, String b (String c r2) =>
          if ((nat_of_ascii b =? 128) && (nat_of_ascii c =? 128))%nat
          then Some r2 else None
      | _, _ => None
      end
  end.

(** [s.lstrip()].  The fuel is the length of the text: every step
    consumes at least one byte. *)
Fixpoint lstrip_fuel (fuel : nat) (s : string) : string :=
  match fuel with
  | O => s
  | S fuel' =>
      match space_head s with
      | Some r => lstrip_fuel fuel' r
      | None => s
      end
  end.

Definition lstrip (s : string) : string := lstrip_fuel (String.length s) s.

Definition blank (s : string) : bool :=
  match lstrip s with EmptyString => true | _ => false end.

(** [s.rstrip()]: drop the longest all-white suffix. *)
Fixpoint rstrip (s : string) : string :=
  match s with
  | EmptyString => EmptyString
  | String a r => if blank s then EmptyString else String a (rstrip r)
  end.

(** [s.strip()]. *)
Definition strip (s : string) : string := rstrip (lstrip s).

(** [s.splitlines()]: the text cut at line boundaries, the boundaries
    dropped, no empty last line.  Boundaries are LF, CR, CR LF, VT, FF,
    FS, GS, RS, and, in UTF-8, NEL (U+0085), LS (U+2028), PS (U+2029).
    [cur] is the line being read, in reverse. *)
Definition rev_string (l : list ascii) : string :=
  fold_left (fun acc a => String a acc) l EmptyString.

Definition line_break_1 (a : ascii) : bool :=
  let n := nat_of_ascii a in
  ((n =? 10) || (n =? 11) || (n =? 12) || (n =? 28) || (n =? 29) || (n =? 30))%nat.

Fixpoint splitlines_from (cur : list ascii) (started : bool) (s : string)
  : list string :=
  match s with
  | EmptyString => if started then [rev_string cur] else []
  | String a r =>
      if line_break_1 a then rev_string cur :: splitlines_from [] false r
      else
      match nat_of_ascii a, r with
      | 13%nat, String b r1 =>
          if (nat_of_ascii b =? 10)%nat
          then rev_string cur :: splitlines_from [] false r1
          else rev_string cur :: splitlines_from [] false r
      | 13%nat, EmptyString => [rev_string cur]
      | 194%nat, String b r1 =>
          if (nat_of_ascii b =? 133)%nat
          then rev_string cur :: splitlines_from [] false r1
          else splitlines_from (a :: cur) true r
      | 226%nat, String b (String c r2) =>
          if ((nat_of_ascii b =? 128)
              && ((nat_of_ascii c =? 168) || (nat_of_ascii c =? 169)))%nat
          then rev_string cur :: splitlines_from [] false r2
          else splitlines_from (a :: cur) true r
      | _, _ => splitlines_from (a :: cur) true r
      end
  end.

Definition splitlines (s : string) : list string :=
  splitlines_from [] false s.

(** The characters of a text, as [for c in s] and [len(s)] see them:
    a byte of the form 10xxxxxx continues the character before it. *)
Definition continuation (a : ascii) : bool :=
  let n := nat_of_ascii a in ((128 <=? n) && (n <? 192))%nat.

Fixpoint chars (s : string) : list string :=
  match s with
  | EmptyString => []
  | String a r =>
      match chars r with
      | c :: cs =>
          match c with
          | String b _ =>
              if continuation b then String a c :: cs
              else String a EmptyString :: c :: cs
          | EmptyString => String a EmptyString :: cs
          end
      | [] => [String a EmptyString]
      end
  end.

(** Does the text hold a brace?  [str.format] reads braces as markup. *)
Fixpoint has_brace (s : string) : bool :=
  match s with
  | EmptyString => false
  | String a r =>
      (Ascii.eqb a "{" || Ascii.eqb a "}")%char || has_brace r
  end.

(** Is [p] a prefix of [s]; how many times does [p] occur in [s]
    (overlaps counted, which the patterns counted below do not have). *)
Fixpoint prefixb (p s : string) : bool :=
  match p, s with
  | EmptyString, _ => true
  | String a p', String b s' => Ascii.eqb a b && prefixb p' s'
  | String _ _, EmptyString => false
  end.

Fixpoint count (p s : string) : nat :=
  match s with
  | EmptyString => O
  | String _ r => ((if prefixb p s then 1 else 0) + count p r)%nat
  end.

End Text.

Import Text.

(** * Python values *)

(** What [json.loads] can return, which is also everything the script
    ever holds in a variable of unknown type. *)
Inductive PyVal : Type :=
| PNone
| PBool (b : bool)
| PInt (n : Z)
| PFloat (x : float)
| PStr (s : string)
| PList (items : list PyVal)
| PDict (fields : list (string * PyVal)).

(** [bool(v)]: what [if v], [v or w] and [v and w] test. *)
Definition truthy (v : PyVal) : bool :=
  match v with
  | PNone => false
  | PBool b => b
  | PInt n => negb (n =? 0)
  | PFloat x => negb (PrimFloat.eqb x PrimFloat.zero)
  | PStr s => negb (String.eqb s EmptyString)
  | PList items => match items with [] => false | _ => true end
  | PDict fields => match fields with [] => false | _ => true end
  end.

Definition str_truthy (s : string) : bool := negb (String.eqb s EmptyString).

(** [type(v).__name__]. *)
Definition type_name (v : PyVal) : string :=
  match v with
  | PNone => "NoneType"
  | PBool _ => "bool"
  | PInt _ => "int"
  | PFloat _ => "float"
  | PStr _ => "str"
  | PList _ => "list"
  | PDict _ => "dict"
  end.

(** [d.get(key)] on the fields of a dict: the first binding of the key. *)
Fixpoint dict_get (key : string) (fields : list (string * PyVal))
  : option PyVal :=
  match fields with
  | [] => None
  | (k, v) :: rest => if String.eqb k key then Some v else dict_get key rest
  end.

(** [d.get(key)] and [d.get(key, default)] as Python values. *)
Definition get_or (key : string) (default : PyVal)
  (fields : list (string * PyVal)) : PyVal :=
  match dict_get key fields with Some v => v | None => default end.

(** * Exceptions *)

(** An instance of a subclass of [Exception]: its class name and its
    [str()].  [SystemExit] is not one; see [raised]. *)
Record exn : Type := Exn { exn_type : string; exn_text : string }.

Definition AttributeError (v : PyVal) (attr : string) : exn :=
  Exn "AttributeError"
      ("'" ++ type_name v ++ "' object has no attribute '" ++ attr ++ "'").

(** A computation that returns or raises an [Exception]. *)
Inductive result (A : Type) : Type :=
| Ok (a : A)
| Err (e : exn).
Arguments Ok {A} a.
Arguments Err {A} e.

Definition rbind {A B} (r : result A) (k : A -> result B) : result B :=
  match r with Ok a => k a | Err e => Err e end.

#[global] Instance result_ret : MRet result := @Ok.
#[global] Instance result_bind : MBind result := fun A B k r => rbind r k.

(** [try: body  except Exception: handler] on such a computation. *)
Definition rcatch {A} (body : result A) (handler : exn -> result A)
  : result A :=
  match body with Ok a => Ok a | Err e => handler e end.

(** * The outside world *)

(** What one [subprocess.run(..., capture_output=True, text=True)] does:
    it raises (the program could not be started) or it completes. *)
Inductive ProcOutcome : Type :=
| ProcRaise (e : exn)
| ProcDone (stdout stderr : string) (returncode : Z).

(** The message handed to the SMTP server. *)
Record Mail : Type := {
  mail_from : string;
  mail_to : option string;
  mail_subject : string;
  mail_body : string;
  mail_html : bool
}.

(** What the script did, in order. *)
Inductive Effect : Type :=
| Spawned (argv : list string)
| SmtpSession (server : string) (port : Z) (login password : string)
              (message : Mail)
| Printed (line : string).

(** [procs] and [smtp] are the outcomes of the processes and of the SMTP
    sessions still to come ([None]: the message was accepted), in the
    order the script starts them; when a list is exhausted the call
    raises [OSError]. *)
Record World : Type := {
  environ : gmap string string;
  hostname : string;
  clock : string;
  procs : list ProcOutcome;
  smtp : list (option exn);
  journal : list Effect
}.

Definition log_effect (e : Effect) (w : World) : World :=
  {| environ := environ w; hostname := hostname w; clock := clock w;
     procs := procs w; smtp := smtp w; journal := journal w ++ [e] |}.

Definition pop_proc (w : World) : World :=
  {| environ := environ w; hostname := hostname w; clock := clock w;
     procs := tail (procs w); smtp := smtp w; journal := journal w |}.

Definition pop_smtp (w : World) : World :=
  {| environ := environ w; hostname := hostname w; clock := clock w;
     procs := procs w; smtp := tail (smtp w); journal := journal w |}.

(** How a call into the world ends: it returns, it raises an [Exception],
    or it raises [SystemExit], which [except Exception] does not catch. *)
Inductive raised : Type :=
| Exc (e : exn)
| SystemExit (msg : string).

Inductive outcome (A : Type) : Type :=
| Ret (a : A)
| Raise (r : raised).
Arguments Ret {A} a.
Arguments Raise {A} r.

Definition M (A : Type) : Type := World -> outcome A * World.

Definition ret {A} (a : A) : M A := fun w => (Ret a, w).
Definition raise {A} (e : exn) : M A := fun w => (Raise (Exc e), w).
Definition exit_with {A} (msg : string) : M A :=
  fun w => (Raise (SystemExit msg), w).

Definition bind {A B} (m : M A) (k : A -> M B) : M B :=
  fun w =>
    match m w with
    | (Ret a, w') => k a w'
    | (Raise r, w') => (Raise r, w')
    end.

(** [M] with stdpp's monad notations: [x ← m; k] and [m;; k]. *)
#[global] Instance M_ret : MRet M := @ret.
#[global] Instance M_bind : MBind M := fun A B k m => bind m k.

Definition lift {A} (r : result A) : M A :=
  match r with Ok a => ret a | Err e => raise e end.

Definition finish {A} (o : outcome A) : M A := fun w => (o, w).

(** [try: body  except Exception as e: handler e]. *)
Definition try_except {A} (body : M A) (handler : exn -> M A) : M A :=
  fun w =>
    match body w with
    | (Raise (Exc e), w') => handler e w'
    | other => other
    end.

(** [os.getenv(name)]. *)
Definition getenv (name : string) : M (option string) :=
  fun w => (Ret (environ w !! name), w).

(** [print(line)]. *)
Definition print (line : string) : M unit :=
  fun w => (Ret tt, log_effect (Printed line) w).

(** [subprocess.run(argv, capture_output=True, text=True, ...)]. *)
Definition subprocess_run (argv : list string) : M (string * string * Z) :=
  fun w =>
    let w1 := log_effect (Spawned argv) w in
    match procs w with
    | [] => (Raise (Exc (Exn "OSError" "no process can be started")), w1)
    | ProcRaise e :: _ => (Raise (Exc e), pop_proc w1)
    | ProcDone out err code :: _ => (Ret (out, err, code), pop_proc w1)
    end.

(** The messages handed to SMTP, among some effects. *)
Definition mails (effects : list Effect) : list Mail :=
  omap (fun e => match e with SmtpSession _ _ _ _ m => Some m | _ => None end)
       effects.

(** * The interpreter's libraries

    [json.loads]; [repr] of a float, a list or a dict; the three calls
    into [datetime] that [fmt_dt_local] makes; [traceback.format_exc()]
    while an exception is handled; and what [str.format] does from a
    replacement field on, when the field is not the plain [hrs] field
    (index and attribute look-ups, conversions, format specifications):
    [format_rest] receives the template from just after the opening
    brace.  A library call returns or raises an [Exception]. *)
Class Interpreter : Type := {
  json_loads : string -> result PyVal;
  py_repr : PyVal -> string;
  datetime : Type;
  fromisoformat : string -> result datetime;
  astimezone : datetime -> result datetime;
  strftime : datetime -> string -> result string;
  format_exc : exn -> string;
  format_rest : string -> Z -> result string
}.

(** * [startup_boot_email.py] *)

Section Script.

Context `{Interpreter}.

(** [str(v)], which an f-string applies to what it interpolates. *)
Definition py_str (v : PyVal) : string :=
  match v with
  | PNone => "None"
  | PBool true => "True"
  | PBool false => "False"
  | PInt n => of_int n
  | PStr s => s
  | PFloat _ | PList _ | PDict _ => py_repr v
  end.

(** [DEBUG = os.getenv("BOOTMAIL_DEBUG", "0") == "1"], read once at
    import; the script never writes the environment. *)
Definition DEBUG (w : World) : bool :=
  match environ w !! "BOOTMAIL_DEBUG" with
  | Some v => String.eqb v "1"
  | None => false
  end.

Definition _dbg (msg : string) : M unit :=
  fun w =>
    if DEBUG w
    then try_except (print ("[BOOTMAIL] " ++ msg)) (fun _ => ret tt) w
    else (Ret tt, w).

Definition PS : string :=
  "C:\\Windows\\System32\\WindowsPowerShell\\v1.0\\powershell.exe".

Definition WRAPPED (code : string) : string :=
  "$ErrorActionPreference='Stop';try {  " ++ code ++ " } catch {  Write-Output ('PS_ERR:' + $_.Exception.GetType().FullName + ' | ' + $_.Exception.Message);  if ($_.InvocationInfo -and $_.InvocationInfo.PositionMessage) {    Write-Output ('PS_ERR_POS:' + $_.InvocationInfo.PositionMessage)  }  exit 1}".

Definition ps_argv (code : string) : list string :=
  [PS; "-NoProfile"; "-ExecutionPolicy"; "Bypass"; "-Command"; WRAPPED code].

(** The [RuntimeError] of a failed run. *)
Definition powershell_failed (code out err : string) : exn :=
  Exn "RuntimeError"
      ("PowerShell failed" ++ nl ++ "CODE:" ++ nl ++ code ++ nl
       ++ "STDOUT:" ++ nl ++ out ++ nl ++ "STDERR:" ++ nl ++ err).

Definition run_ps (code : string) : M string :=
  p ← subprocess_run (ps_argv code);
  let '(stdout, stderr, returncode) := p in
  let out := strip stdout in
  if negb (returncode =? 0) then
    let err := strip stderr in
    raise (powershell_failed code out err)
  else ret out.

Definition boot_time_query : string :=
  "(Get-CimInstance Win32_OperatingSystem).LastBootUpTime.ToUniversalTime().ToString('o')".

Definition get_boot_time_iso : M string := run_ps boot_time_query.

(** [os.getenv("COMPUTERNAME") or socket.gethostname()]. *)
Definition get_machine_name : M string :=
  name ← getenv "COMPUTERNAME";
  match name with
  | Some n => if str_truthy n then ret n else fun w => (Ret (hostname w), w)
  | None => fun w => (Ret (hostname w), w)
  end.

Definition ipv4_query : string :=
  "Get-NetIPAddress -AddressFamily IPv4 | Where-Object { $_.InterfaceOperationalStatus -eq 'Up'  -and $_.IPAddress -notlike '169.*'  -and $_.IPAddress -ne '127.0.0.1' } | Select-Object -ExpandProperty IPAddress".

(** [[line.strip() for line in out.splitlines() if line.strip()]]. *)
Definition detected_lines (out : string) : list string :=
  List.filter str_truthy (map strip (splitlines out)).

(** The list [ips] before detection: [MACHINE_IP] when it is set to a
    non-empty text. *)
Definition env_fallback (env_ip : option string) : list string :=
  match env_ip with
  | Some ip => if str_truthy ip then [ip] else []
  | None => []
  end.

Definition get_local_ipv4_list : M (list string) :=
  env_ip ← getenv "MACHINE_IP";
  let ips := env_fallback env_ip in
  try_except
    (out ← run_ps ipv4_query;
     let detected := detected_lines out in
     match detected with
     | [] => ret ips
     | _ => ret detected
     end)
    (fun _ => ret ips).

Definition crash_query : string :=
  "$ids=41,6008,1001; Get-WinEvent -FilterHashtable @{LogName='System'; Id=$ids} -MaxEvents 200 -ErrorAction SilentlyContinue | Sort-Object TimeCreated | Select-Object @{n='TimeCreated';e={$_.TimeCreated.ToUniversalTime().ToString('o')}},Id,ProviderName,Message | Select-Object -Last 1 | ConvertTo-Json -Depth 3 -Compress".

(** What lines 124 to 132 make of the output of the query.  The marker
    is returned as the fields of the dict; [except json.JSONDecodeError]
    catches that class only. *)
Definition marker_of_output (out : string)
  : outcome (option (list (string * PyVal))) :=
  if negb (str_truthy out) then Ret None
  else
    match json_loads out with
    | Ok (PDict fields) =>
        if truthy (get_or "TimeCreated" PNone fields) then Ret (Some fields)
        else Ret None
    | Ok _ => Ret None
    | Err e =>
        if String.eqb (exn_type e) "JSONDecodeError" then Ret None
        else Raise (Exc e)
    end.

Definition get_latest_crash_marker : M (option (list (string * PyVal))) :=
  out ← run_ps crash_query;
  finish (marker_of_output out).

(** ** The query for recent errors

    [str.format(hrs=...)] on a template, as far as the script's own
    templates need it: literal text, doubled braces, a lone closing
    brace, and the field [{hrs}].  Any other field is [format_rest]'s.
    The states say what has been read since the last literal
    character. *)
Inductive fmt_state : Type :=
| InText | Opened | Closed | FieldH | FieldHR | FieldHRS.

Definition single_close : exn :=
  Exn "ValueError" "Single '}' encountered in format string".
Definition single_open : exn :=
  Exn "ValueError" "Single '{' encountered in format string".

Definition emit (a : ascii) (r : result string) : result string :=
  rbind r (fun s => Ok (String a s)).

Fixpoint format_from (st : fmt_state) (template : string) (hrs : Z)
  : result string :=
  match template with
  | EmptyString =>
      match st with
      | InText => Ok EmptyString
      | Opened => Err single_open
      | Closed => Err single_close
      | FieldH => format_rest "h" hrs
      | FieldHR => format_rest "hr" hrs
      | FieldHRS => format_rest "hrs" hrs
      end
  | String a r =>
      match st with
      | InText =>
          if Ascii.eqb a "{" then format_from Opened r hrs
          else if Ascii.eqb a "}" then format_from Closed r hrs
          else emit a (format_from InText r hrs)
      | Opened =>
          if Ascii.eqb a "{" then emit a (format_from InText r hrs)
          else if Ascii.eqb a "h" then format_from FieldH r hrs
          else format_rest template hrs
      | Closed =>
          if Ascii.eqb a "}" then emit a (format_from InText r hrs)
          else Err single_close
      | FieldH =>
          if Ascii.eqb a "r" then format_from FieldHR r hrs
          else format_rest ("h" ++ template) hrs
      | FieldHR =>
          if Ascii.eqb a "s" then format_from FieldHRS r hrs
          else format_rest ("hr" ++ template) hrs
      | FieldHRS =>
          if Ascii.eqb a "}"
          then rbind (format_from InText r hrs)
                     (fun s => Ok (of_int hrs ++ s))
          else format_rest ("hrs" ++ template) hrs
      end
  end.

Definition str_format (template : string) (hrs : Z) : result string :=
  format_from InText template hrs.

(** The part of the windowed query that [.format] is applied to: the
    adjacent literals up to the [+], the f-string among them already
    filled in with [time_iso]. *)
Definition window_prelude_template (time_iso : string) : string :=
  "[CultureInfo] = [System.Globalization.CultureInfo]::InvariantCulture; [Styles] = [System.Globalization.DateTimeStyles]::AdjustToUniversal; $t=[datetime]::Parse('" ++ time_iso ++ "', [CultureInfo], [Styles]); $start = $t.AddHours(-{hrs}); ".

Definition window_pipeline (limit : Z) : string :=
  "Get-WinEvent -FilterHashtable @{LogName='System'; Level=1,2} -MaxEvents 1000 -ErrorAction SilentlyContinue | Where-Object { $_.TimeCreated -le $t -and $_.TimeCreated -ge $start } | Sort-Object TimeCreated | Select-Object -Last " ++ of_int limit ++ " | Select-Object @{n='TimeCreated';e={$_.TimeCreated.ToUniversalTime().ToString('o')}},Id,ProviderName,Message | ConvertTo-Json -Depth 3 -Compress".

Definition window_query (time_iso : string) (hours_before limit : Z)
  : result string :=
  rbind (str_format (window_prelude_template time_iso) hours_before)
        (fun prelude => Ok (prelude ++ window_pipeline limit)).

(** The text of the windowed query when [time_iso] holds no brace. *)
Definition window_query_text (time_iso : string) (hours_before limit : Z)
  : string :=
  "[CultureInfo] = [System.Globalization.CultureInfo]::InvariantCulture; [Styles] = [System.Globalization.DateTimeStyles]::AdjustToUniversal; $t=[datetime]::Parse('"
  ++ time_iso ++ "', [CultureInfo], [Styles]); $start = $t.AddHours(-"
  ++ of_int hours_before ++ "); " ++ window_pipeline limit.

(** The query without a time window; the source writes it out twice,
    once for the branch without a reference time and once as the
    fallback. *)
Definition recent_query (limit : Z) : string :=
  "Get-WinEvent -FilterHashtable @{LogName='System'; Level=1,2} -MaxEvents 500 -ErrorAction SilentlyContinue | Sort-Object TimeCreated | Select-Object -Last " ++ of_int limit ++ " | Select-Object @{n='TimeCreated';e={$_.TimeCreated.ToUniversalTime().ToString('o')}},Id,ProviderName,Message | ConvertTo-Json -Depth 3 -Compress".

(** What both [try] bodies do with the output of their query. *)
Definition events_of_output (out : string) : result PyVal :=
  if negb (str_truthy out) then Ok (PList [])
  else
    rbind (json_loads out) (fun data =>
      match data with
      | PDict _ => Ok (PList [data])
      | _ => Ok (if truthy data then data else PList [])
      end).

Definition build_query (time_iso : option string) (hours_before limit : Z)
  : result string :=
  match time_iso with
  | Some t =>
      if str_truthy t then window_query t hours_before limit
      else Ok (recent_query limit)
  | None => Ok (recent_query limit)
  end.

Definition get_recent_errors_near (time_iso : option string)
  (hours_before limit : Z) : M PyVal :=
  ps ← lift (build_query time_iso hours_before limit);
  try_except
    (out ← run_ps ps;
     lift (events_of_output out))
    (fun _ =>
       try_except
         (out2 ← run_ps (recent_query limit);
          lift (events_of_output out2))
         (fun _ => ret (PList []))).

(** ** Rendering *)

Definition fmt_dt_local_try (iso_utc : PyVal) : result PyVal :=
  match iso_utc with
  | PStr s =>
      dt ← fromisoformat (replace_char "Z" "+00:00" s);
      local ← astimezone dt;
      text ← strftime local "%Y-%m-%d %H:%M:%S %Z";
      Ok (PStr text)
  | v => Err (AttributeError v "replace")
  end.

Definition fmt_dt_local (iso_utc : PyVal) : result PyVal :=
  rcatch (fmt_dt_local_try iso_utc) (fun _ => Ok iso_utc).

(** [(d.get("Message") or "").replace("\r", " ").replace("\n", " ").strip()]. *)
Definition clean_message (fields : list (string * PyVal)) : result string :=
  let m := get_or "Message" PNone fields in
  match (if truthy m then m else PStr EmptyString) with
  | PStr s =>
      Ok (strip (replace_char (ascii_of_nat 10) " "
                   (replace_char (ascii_of_nat 13) " " s)))
  | v => Err (AttributeError v "replace")
  end.

(** [v or ""]. *)
Definition or_empty (v : PyVal) : PyVal :=
  if truthy v then v else PStr EmptyString.

Definition crash_block (crash : option (list (string * PyVal)))
  : result string :=
  match crash with
  | Some ((_ :: _) as fields) =>
      msg ← clean_message fields;
      local ← fmt_dt_local (or_empty (get_or "TimeCreated" PNone fields));
      Ok ("
        <h3>Most recent crash marker</h3>
        <ul>
          <li><b>Time (UTC):</b> " ++ py_str (get_or "TimeCreated" PNone fields) ++ "</li>
          <li><b>Time (Local):</b> " ++ py_str local ++ "</li>
          <li><b>Event ID:</b> " ++ py_str (get_or "Id" PNone fields) ++ "</li>
          <li><b>Provider:</b> " ++ py_str (get_or "ProviderName" PNone fields) ++ "</li>
          <li><b>Message:</b><br><pre style=" ++ dq ++ "white-space:pre-wrap" ++ dq ++ ">" ++ msg ++ "</pre></li>
        </ul>
        ")
  | _ => Ok EmptyString
  end.

(** What [for ev in errors] walks through. *)
Definition py_iter (v : PyVal) : result (list PyVal) :=
  match v with
  | PList items => Ok items
  | PStr s => Ok (map PStr (chars s))
  | PDict fields => Ok (map (fun kv => PStr (fst kv)) fields)
  | _ => Err (Exn "TypeError" ("'" ++ type_name v ++ "' object is not iterable"))
  end.

(** One turn of the loop: the row for [ev]. *)
Definition event_row (ev : PyVal) : result string :=
  match ev with
  | PDict fields =>
      msg ← clean_message fields;
      local ← fmt_dt_local (get_or "TimeCreated" (PStr EmptyString) fields);
      Ok ("<tr><td>" ++ py_str (get_or "TimeCreated" (PStr EmptyString) fields)
          ++ "</td><td>" ++ py_str local
          ++ "</td><td>" ++ py_str (get_or "Id" (PStr EmptyString) fields)
          ++ "</td><td>" ++ py_str (get_or "ProviderName" (PStr EmptyString) fields)
          ++ "</td><td><pre style='white-space:pre-wrap'>" ++ msg
          ++ "</pre></td></tr>")
  | v => Err (AttributeError v "get")
  end.

Fixpoint event_rows (rows : string) (events : list PyVal) : result string :=
  match events with
  | [] => Ok rows
  | ev :: rest =>
      row ← event_row ev;
      event_rows (rows ++ row) rest
  end.

(** The head of the document, up to the table of events. *)
Definition report_head (machine ip_html boot_iso boot_local now block : string)
  : string :=
  "
    <h2>PC Boot Notification</h2>
    <p><b>Machine:</b> " ++ machine ++ "</p>
    <p><b>Local IPv4:</b><br>" ++ ip_html ++ "</p>
    <p><b>Boot Time (UTC):</b> " ++ boot_iso ++ "<br>
       <b>Boot Time (Local):</b> " ++ boot_local ++ "</p>
    <p><i>Startup detected at:</i> " ++ now ++ "</p>
    " ++ block.

Definition table_head : string :=
  "
    <h3>Recent Critical/Error events</h3>
    <table border=" ++ dq ++ "1" ++ dq ++ " cellpadding=" ++ dq ++ "6" ++ dq ++ " cellspacing=" ++ dq ++ "0" ++ dq ++ ">
      <thead>
        <tr><th>UTC</th><th>Local</th><th>ID</th><th>Provider</th><th>Message</th></tr>
      </thead>
      <tbody>".

Definition placeholder_row : string := "<tr><td colspan='5'>(none)</td></tr>".

(** [rows or "<tr>...(none)...</tr>"]. *)
Definition table_body (rows : string) : string :=
  if str_truthy rows then rows else placeholder_row.

Definition table_foot : string :=
  "</tbody>
    </table>
    ".

Definition events_table (rows : string) : string :=
  table_head ++ table_body rows ++ table_foot.

(** [formatdate(localtime=True)] reads the clock. *)
Definition make_html (machine : string) (ips : list string)
  (boot_iso : string) (crash : option (list (string * PyVal)))
  (errors : PyVal) : M string :=
  fun w =>
    let ip_html :=
      match ips with [] => "(none detected)" | _ => join "<br>" ips end in
    let rendered :=
      boot_local ← fmt_dt_local (PStr boot_iso);
      block ← crash_block crash;
      events ← py_iter errors;
      rows ← event_rows EmptyString events;
      Ok (report_head machine ip_html boot_iso (py_str boot_local)
                      (clock w) block
          ++ events_table rows) in
    lift rendered w.

(** ** [pythonEmailNotify.EmailSender] *)

Record EmailSender : Type := {
  smtp_server : string;
  port : Z;
  login : string;
  password : string;
  default_recipient : option string
}.

(** The [with smtplib.SMTP(...)] block: connect, [starttls], [login],
    [send_message].  One outcome stands for the whole session. *)
Definition smtp_send (self : EmailSender) (message : Mail) : M unit :=
  fun w =>
    let w1 := log_effect
                (SmtpSession (smtp_server self) (port self) (login self)
                             (password self) message) w in
    match smtp w with
    | [] => (Raise (Exc (Exn "OSError" "no connection can be made")), w1)
    | Some e :: _ => (Raise (Exc e), pop_smtp w1)
    | None :: _ => (Ret tt, pop_smtp w1)
    end.

(** [recipient or self.default_recipient]. *)
Definition pick_recipient (self : EmailSender) (recipient : option string)
  : option string :=
  match recipient with
  | Some r => if str_truthy r then Some r else default_recipient self
  | None => default_recipient self
  end.

Definition str_of_recipient (r : option string) : string :=
  match r with Some s => s | None => "None" end.

Definition sendEmail (self : EmailSender) (subject body : string)
  (recipient : option string) (html : bool) : M unit :=
  match recipient, default_recipient self with
  | None, None => raise (Exn "ValueError" "Recipient email must be specified.")
  | _, _ =>
      let recipient := pick_recipient self recipient in
      let msg := {| mail_from := login self; mail_to := recipient;
                    mail_subject := subject; mail_body := body;
                    mail_html := html |} in
      try_except
        (smtp_send self msg;;
         print ("Email sent successfully to " ++ str_of_recipient recipient
                ++ "."))
        (fun e => print ("Failed to send email: " ++ exn_text e))
  end.

Definition exception_subject : string := "Exception Occurred in Script".

Definition sendException (self : EmailSender) (exception : exn)
  (recipient : option string) : M unit :=
  let subject := exception_subject in
  let body := "
        <h1>Exception Report</h1>
        <p><strong>Type:</strong> " ++ exn_type exception ++ "</p>
        <p><strong>Message:</strong> " ++ exn_text exception ++ "</p>
        <p><strong>Traceback:</strong></p>
        <pre>" ++ format_exc exception ++ "</pre>
        " in
  sendEmail self subject body recipient true.

(** ** The runner *)

(** [x or y] on what [os.getenv] returns. *)
Definition env_or (x y : option string) : option string :=
  match x with
  | Some s => if str_truthy s then x else y
  | None => y
  end.

Definition build_sender_from_env : M (option EmailSender) :=
  addr ← getenv "EMAIL_ADDRESS";
  pw ← getenv "EMAIL_PASSWORD";
  main_addr ← getenv "MAIN_EMAIL_ADDRESS";
  let rcpt := env_or main_addr addr in
  match addr, pw with
  | Some a, Some p =>
      if str_truthy a && str_truthy p
      then ret (Some {| smtp_server := "smtp.gmail.com"; port := 587;
                        login := a; password := p;
                        default_recipient := rcpt |})
      else ret None
  | _, _ => ret None
  end.

Definition notify_exception (e : exn) : M unit :=
  try_except
    (sender ← build_sender_from_env;
     match sender with
     | Some s => sendException s e None
     | None => ret tt
     end)
    (fun _ w =>
       if DEBUG w
       then try_except
              (print ("[BOOTMAIL] notify_exception failed: " ++ exn_text e))
              (fun _ => ret tt) w
       else (Ret tt, w)).

(** [crash.get("TimeCreated") if crash else None], for a marker whose
    time is text; line 299 concatenates that value to a [str] first,
    which raises [TypeError] for anything else. *)
Definition marker_time (crash : option (list (string * PyVal)))
  : result (option string) :=
  match crash with
  | Some ((_ :: _) as fields) =>
      match get_or "TimeCreated" PNone fields with
      | PStr s => Ok (Some s)
      | v => Err (Exn "TypeError"
                    ("can only concatenate str (not " ++ dq ++ type_name v
                     ++ dq ++ ") to str"))
      end
  | _ => Ok None
  end.

(** [len(v)]. *)
Definition py_len (v : PyVal) : result Z :=
  match v with
  | PList items => Ok (Z.of_nat (length items))
  | PDict fields => Ok (Z.of_nat (length fields))
  | PStr s => Ok (Z.of_nat (length (chars s)))
  | _ => Err (Exn "TypeError"
                ("object of type '" ++ type_name v ++ "' has no len()"))
  end.

(** The subject line of the boot mail. *)
Definition boot_subject (machine : string) (ips : list string) : string :=
  "[BOOT] " ++ machine ++ " is online — "
  ++ match ips with [] => "no IPs" | _ => join ", " ips end.

Definition repr_ips (ips : list string) : string :=
  py_repr (PList (map PStr ips)).

(** Lines 324 to 330: the boot mail is sent; if that raises, the
    exception is reported and raised again. *)
Definition send_boot_mail (sender : EmailSender) (subj html : string)
  : M unit :=
  try_except
    (sendEmail sender subj html None true;;
     _dbg "Boot email sent")
    (fun e =>
       _dbg ("Boot email failed: " ++ exn_text e);;
       notify_exception e;;
       raise e).

Definition main : M unit :=
  built ← build_sender_from_env;
  match built with
  | None => exit_with "EMAIL_ADDRESS/EMAIL_PASSWORD not set in environment."
  | Some sender =>
      _dbg ("Email sender built. From/To=" ++ login sender);;
      machine ← get_machine_name;
      _dbg ("Machine=" ++ machine);;
      ips ← get_local_ipv4_list;
      _dbg ("IPs=" ++ repr_ips ips);;
      boot_iso ← get_boot_time_iso;
      _dbg ("BootISO=" ++ boot_iso);;
      crash ← get_latest_crash_marker;
      ref_time ← lift (marker_time crash);
      _dbg ("Crash marker=" ++ default "None" ref_time);;
      recent_errors ←
        try_except
          (found ← get_recent_errors_near ref_time 6 10;
           n ← lift (py_len found);
           _dbg ("Fetched " ++ of_int n ++ " recent error/critical events");;
           ret found)
          (fun e =>
             notify_exception e;;
             _dbg ("Recent-errors fetch failed: " ++ exn_text e);;
             ret (PList []));
      let subj := boot_subject machine ips in
      html ← make_html machine ips boot_iso crash recent_errors;
      _dbg "Composed email HTML";;
      (fun w =>
         if DEBUG w
         then try_except
                (sendEmail sender ("[BOOT-TEST] " ++ machine)
                           ("Probe. IPs=" ++ repr_ips ips) None false;;
                 _dbg "Probe email sent")
                (fun e =>
                   _dbg ("Probe email failed: " ++ exn_text e);;
                   notify_exception e) w
         else (Ret tt, w));;
      send_boot_mail sender subj html
  end.

(** [if __name__ == "__main__":] the process boundary. *)
Definition script : M unit :=
  try_except main (fun e => notify_exception e;; raise e).

End Script.

(** * A log, and texts that a host can print from it

    The script hands its queries to PowerShell as text and reads what
    comes back: nothing under [src/] filters or sorts events.  The
    functions below are no semantics of those queries, and no property
    of the script rests on them: they serve to write down the outputs
    of the reference worlds, and to read the time of an event that came
    back.  Times are .NET ticks (100 ns); [ev_time] is the event's
    [TimeCreated] as the log holds it.  [Parse] is
    [[datetime]::Parse(text, InvariantCulture, AdjustToUniversal)] and
    [ToString_o] is [ToUniversalTime().ToString('o')]. *)
Class DotNet : Type := {
  Parse : string -> option Z;
  ToString_o : Z -> string
}.

Record WinEvent : Type := {
  ev_time : Z;
  ev_level : Z;
  ev_id : Z;
  ev_provider : string;
  ev_message : string
}.

Definition ticks_per_hour : Z := 36000000000.

(** [Get-WinEvent -FilterHashtable @{LogName='System'; Level=1,2}
    -MaxEvents n] on a log listed newest first. *)
Definition Get_WinEvent (log : list WinEvent) (max_events : nat)
  : list WinEvent :=
  firstn max_events
    (List.filter (fun e => (ev_level e =? 1) || (ev_level e =? 2)) log).

(** [Where-Object { $_.TimeCreated -le $t -and $_.TimeCreated -ge $start }]. *)
Definition Where_in_window (t start : Z) (events : list WinEvent)
  : list WinEvent :=
  List.filter (fun e => (ev_time e <=? t) && (ev_time e >=? start)) events.

(** [Sort-Object TimeCreated]. *)
Fixpoint insert_by_time (e : WinEvent) (sorted : list WinEvent)
  : list WinEvent :=
  match sorted with
  | [] => [e]
  | x :: rest =>
      if ev_time e <=? ev_time x then e :: sorted
      else x :: insert_by_time e rest
  end.

Definition Sort_by_time (events : list WinEvent) : list WinEvent :=
  fold_right insert_by_time [] events.

(** [Select-Object -Last n]. *)
Definition Select_last (n : nat) (events : list WinEvent) : list WinEvent :=
  skipn (length events - n) events.

(** [Select-Object @{n='TimeCreated';e={...ToString('o')}},Id,ProviderName,Message]. *)
Definition Select_fields `{DotNet} (e : WinEvent) : list (string * PyVal) :=
  [("TimeCreated", PStr (ToString_o (ev_time e)));
   ("Id", PInt (ev_id e));
   ("ProviderName", PStr (ev_provider e));
   ("Message", PStr (ev_message e))].

Definition window_events (log : list WinEvent) (t start : Z) (limit : Z)
  : list WinEvent :=
  Select_last (Z.to_nat limit)
    (Sort_by_time (Where_in_window t start (Get_WinEvent log 1000))).

(** The time of a returned event, and whether it lies in
    [[T - hours_before, T]]. *)
Definition time_of `{DotNet} (event : PyVal) : option Z :=
  match event with
  | PDict fields =>
      match dict_get "TimeCreated" fields with
      | Some (PStr s) => Parse s
      | _ => None
      end
  | _ => None
  end.

Definition in_window `{DotNet} (time_iso : string) (hours_before : Z)
  (event : PyVal) : bool :=
  match Parse time_iso, time_of event with
  | Some t, Some x => (t - hours_before * ticks_per_hour <=? x) && (x <=? t)
  | _, _ => false
  end.

(** * A reference platform

    Concrete libraries and worlds, to run the script on.  The calendar is
    the proleptic Gregorian one; ticks count from 0001-01-01T00:00:00. *)
Module Reference.

Definition digit (a : ascii) : option Z :=
  let n := nat_of_ascii a in
  if ((48 <=? n) && (n <=? 57))%nat then Some (Z.of_nat n - 48) else None.

Fixpoint read_digits (n : nat) (acc : Z) (s : string) : option (Z * string) :=
  match n with
  | O => Some (acc, s)
  | S n' =>
      match s with
      | String a r => d ← digit a; read_digits n' (acc * 10 + d) r
      | EmptyString => None
      end
  end.

Definition expect (c : ascii) (s : string) : option string :=
  match s with
  | String a r => if Ascii.eqb a c then Some r else None
  | EmptyString => None
  end.

Definition leap (y : Z) : bool :=
  (y mod 4 =? 0) && (negb (y mod 100 =? 0) || (y mod 400 =? 0)).

Definition days_in_month (y m : Z) : Z :=
  if m =? 2 then (if leap y then 29 else 28)
  else if (m =? 4) || (m =? 6) || (m =? 9) || (m =? 11) then 30 else 31.

(** Days from 0001-01-01 to the given date. *)
Definition days_from_civil (y m d : Z) : Z :=
  let y' := if m <=? 2 then y - 1 else y in
  let era := y' / 400 in
  let yoe := y' - era * 400 in
  let mp := if m >? 2 then m - 3 else m + 9 in
  let doy := (153 * mp + 2) / 5 + d - 1 in
  let doe := yoe * 365 + yoe / 4 - yoe / 100 + doy in
  era * 146097 + doe - 306.

(** The date of a day count, the inverse of [days_from_civil]. *)
Definition civil_from_days (days : Z) : Z * Z * Z :=
  let z := days + 306 in
  let era := z / 146097 in
  let doe := z - era * 146097 in
  let yoe := (doe - doe / 1460 + doe / 36524 - doe / 146096) / 365 in
  let doy := doe - (365 * yoe + yoe / 4 - yoe / 100) in
  let mp := (5 * doy + 2) / 153 in
  let d := doy - (153 * mp + 2) / 5 + 1 in
  let m := if mp <? 10 then mp + 3 else mp - 9 in
  let y := yoe + era * 400 + (if m <=? 2 then 1 else 0) in
  (y, m, d).

(** Date and time of day read off the head of
    [yyyy-MM-ddTHH:mm:ss.fffffff], as ticks, with what follows. *)
Definition read_stamp (s : string) : option (Z * string) :=
  '(y, s) ← read_digits 4 0 s; s ← expect "-" s;
  '(mo, s) ← read_digits 2 0 s; s ← expect "-" s;
  '(d, s) ← read_digits 2 0 s; s ← expect "T" s;
  '(h, s) ← read_digits 2 0 s; s ← expect ":" s;
  '(mi, s) ← read_digits 2 0 s; s ← expect ":" s;
  '(sec, s) ← read_digits 2 0 s; s ← expect "." s;
  '(frac, s) ← read_digits 7 0 s;
  if (1 <=? y) && (1 <=? mo) && (mo <=? 12) && (1 <=? d)
     && (d <=? days_in_month y mo) && (h <? 24) && (mi <? 60) && (sec <? 60)
  then Some (days_from_civil y mo d * 864000000000 + h * 36000000000
             + mi * 600000000 + sec * 10000000 + frac, s)
  else None.

(** [Parse] on the round-trip form [yyyy-MM-ddTHH:mm:ss.fffffffZ]. *)
Definition parse_o (s : string) : option Z :=
  '(ticks, rest) ← read_stamp s;
  if String.eqb rest "Z" then Some ticks else None.

(** [n] in decimal, padded with zeros to [width] digits. *)
Fixpoint pad (width : nat) (n : Z) (acc : string) : string :=
  match width with
  | O => acc
  | S w =>
      pad w (n / 10)
          (String (ascii_of_nat (48 + Z.to_nat (n mod 10))) acc)
  end.

Definition stamp (ticks : Z) (with_fraction : bool) (sep : string) : string :=
  let '(y, m, d) := civil_from_days (ticks / 864000000000) in
  let r := ticks mod 864000000000 in
  pad 4 y ("-" ++ pad 2 m ("-" ++ pad 2 d (sep ++
    pad 2 (r / 36000000000) (":" ++
    pad 2 (r / 600000000 mod 60) (":" ++
    pad 2 (r / 10000000 mod 60)
      (if with_fraction then "." ++ pad 7 (r mod 10000000) EmptyString
       else EmptyString)))))).

Definition print_o (ticks : Z) : string := stamp ticks true "T" ++ "Z".

Definition dotnet : DotNet := {| Parse := parse_o; ToString_o := print_o |}.
#[local] Existing Instance dotnet.

(** [ConvertTo-Json -Compress] on the records of some events, for texts
    that need no escaping. *)
Definition json_string (s : string) : string := dq ++ s ++ dq.

Definition json_record (e : WinEvent) : string :=
  "{" ++ json_string "TimeCreated" ++ ":" ++ json_string (print_o (ev_time e))
  ++ "," ++ json_string "Id" ++ ":" ++ of_int (ev_id e)
  ++ "," ++ json_string "ProviderName" ++ ":" ++ json_string (ev_provider e)
  ++ "," ++ json_string "Message" ++ ":" ++ json_string (ev_message e) ++ "}".

Definition ConvertTo_Json (events : list WinEvent) : string :=
  match events with
  | [] => EmptyString
  | [e] => json_record e
  | _ => "[" ++ join "," (map json_record events) ++ "]"
  end.

Definition loaded (events : list WinEvent) : PyVal :=
  match events with
  | [e] => PDict (Select_fields e)
  | _ => PList (map (fun e => PDict (Select_fields e)) events)
  end.

(** A System log, newest first: one event after the reference time
    2024-05-01T12:00:00Z, two errors in the six hours before it, one
    informational event in between, one error the evening before. *)
Definition service_failed : string :=
  "The Print Spooler service terminated unexpectedly.".

Definition system_log : list WinEvent :=
  [ {| ev_time := 638501652000000000; ev_level := 2; ev_id := 7031;
       ev_provider := "Service Control Manager"; ev_message := service_failed |};
    {| ev_time := 638501580000000000; ev_level := 2; ev_id := 7031;
       ev_provider := "Service Control Manager"; ev_message := service_failed |};
    {| ev_time := 638501544000000000; ev_level := 4; ev_id := 6013;
       ev_provider := "EventLog"; ev_message := "The system uptime is 120 seconds." |};
    {| ev_time := 638501526151234567; ev_level := 1; ev_id := 41;
       ev_provider := "Microsoft-Windows-Kernel-Power";
       ev_message := "The system has rebooted without cleanly shutting down first." |};
    {| ev_time := 638501183999999999; ev_level := 2; ev_id := 10016;
       ev_provider := "Microsoft-Windows-DistributedCOM";
       ev_message := "The application-specific permission settings do not grant Local Activation permission." |} ].

Definition reference_time : string := "2024-05-01T12:00:00.0000000Z".

(** Events of that log for the reference worlds to print: the errors
    of the six hours before the reference time, and the latest errors
    overall. *)
Definition window_output : list WinEvent :=
  window_events system_log 638501616000000000
                (638501616000000000 - 6 * ticks_per_hour) 10.

Definition recent_output : list WinEvent :=
  Select_last 10 (Sort_by_time (Get_WinEvent system_log 500)).

(** What the crash-marker query prints: the newest event with one of
    the ids 41, 6008, 1001. *)
Definition crash_output : list WinEvent :=
  Select_last 1
    (Sort_by_time
       (List.filter (fun e => (ev_id e =? 41) || (ev_id e =? 6008)
                              || (ev_id e =? 1001)) system_log)).

(** [json.loads] on the texts that these worlds print: anything else is
    refused as not being JSON. *)
Definition known_outputs : list (list WinEvent) :=
  [window_output; recent_output; crash_output].

Definition loads (s : string) : result PyVal :=
  match List.find (fun events => String.eqb (ConvertTo_Json events) s)
                  known_outputs with
  | Some events => Ok (loaded events)
  | None => Err (Exn "JSONDecodeError" "Expecting value: line 1 column 1 (char 0)")
  end.

(** [repr] of a list of plain texts, which is what the debug lines print. *)
Definition repr (v : PyVal) : string :=
  match v with
  | PList items =>
      "[" ++ join ", " (map (fun i => match i with
                                      | PStr s => "'" ++ s ++ "'"
                                      | _ => "..."
                                      end) items) ++ "]"
  | _ => "..."
  end.

(** [datetime.fromisoformat] on [yyyy-MM-ddTHH:mm:ss.fffffff+00:00], on
    a machine whose local zone is UTC.  The reference times hold no
    brace, so [format_rest] is never asked and refuses every field. *)
Definition isoparse (s : string) : result Z :=
  match read_stamp s with
  | Some (ticks, rest) =>
      if String.eqb rest "+00:00" then Ok ticks
      else Err (Exn "ValueError" ("Invalid isoformat string: '" ++ s ++ "'"))
  | None => Err (Exn "ValueError" ("Invalid isoformat string: '" ++ s ++ "'"))
  end.

Definition local_text (ticks : Z) (fmt : string) : result string :=
  if String.eqb fmt "%Y-%m-%d %H:%M:%S %Z"
  then Ok (stamp ticks false " " ++ " UTC")
  else Err (Exn "ValueError" "Invalid format string").

Definition interpreter : Interpreter := {|
  json_loads := loads;
  py_repr := repr;
  datetime := Z;
  fromisoformat := isoparse;
  astimezone := Ok;
  strftime := local_text;
  format_exc := fun e => "Traceback (most recent call last):" ++ nl
                         ++ exn_type e ++ ": " ++ exn_text e ++ nl;
  format_rest := fun _ _ => Err (Exn "ValueError" "unsupported replacement field")
|}.
#[local] Existing Instance interpreter.

(** Worlds.  Mail is configured; the machine is HOST1. *)
Definition configured : gmap string string :=
  <["EMAIL_ADDRESS" := "boot@example.org"]>
    (<["EMAIL_PASSWORD" := "app-password"]>
       (<["COMPUTERNAME" := "HOST1"]> ∅)).

Definition world (env : gmap string string) (ps : list ProcOutcome)
  (sessions : list (option exn)) : World :=
  {| environ := env; hostname := "host1.example.org";
     clock := "Wed, 01 May 2024 08:02:11 -0000";
     procs := ps; smtp := sessions; journal := [] |}.

Definition done (out : string) : ProcOutcome := ProcDone (out ++ cr ++ nl) EmptyString 0.
Definition failed : ProcOutcome :=
  ProcDone ("PS_ERR:System.Management.Automation.RuntimeException | failed" ++ cr ++ nl)
           EmptyString 1.

Definition boot_time : string := "2024-05-01T08:00:00.0000000Z".

(** A boot with one address, no crash marker and no recent errors. *)
Definition quiet_boot (sessions : list (option exn)) : World :=
  world configured
        [done "10.0.0.5"; done boot_time; done EmptyString; done EmptyString]
        sessions.

(** The same boot with no address to be found. *)
Definition offline_boot : World :=
  world configured
        [done EmptyString; done boot_time; done EmptyString; done EmptyString]
        [None].

(** The same boot when the SMTP server refuses the login. *)
Definition refused : exn :=
  Exn "SMTPAuthenticationError" "(535, b'5.7.8 Username and Password not accepted')".

Definition refused_boot : World := quiet_boot [Some refused; None; None].

(** The first process prints the errors of the six hours before the
    reference time; the first process fails, as PowerShell does on a
    query it rejects, and the second prints the latest errors overall. *)
Definition answered : World :=
  world configured [done (ConvertTo_Json window_output)] [].

Definition unanswered : World :=
  world configured [failed; done (ConvertTo_Json recent_output)] [].

(** Detection runs and finds no address, with a fallback in the
    environment; detection fails, with [MACHINE_IP] set to nothing. *)
Definition no_address_found : World :=
  world (<["MACHINE_IP" := "192.168.1.50"]> configured) [done EmptyString] [].

Definition empty_fallback : World :=
  world (<["MACHINE_IP" := EmptyString]> configured) [failed] [].

(** The crash-marker query finds nothing; it finds the Kernel-Power
    event. *)
Definition no_marker : World := world configured [done EmptyString] [].

Definition marker_found : World :=
  world configured [done (ConvertTo_Json crash_output)] [].

(** The client that [configured] gives. *)
Definition client : EmailSender :=
  {| smtp_server := "smtp.gmail.com"; port := 587;
     login := "boot@example.org"; password := "app-password";
     default_recipient := Some "boot@example.org" |}.

(** No credentials at all. *)
Definition unconfigured : World := world ∅ [] [].

(** The query for the boot time fails; the query for the crash marker
    fails. *)
Definition no_boot_time : World :=
  world configured [done "10.0.0.5"; failed] [None].

Definition no_crash_query : World :=
  world configured [done "10.0.0.5"; done boot_time; failed] [None].

(** A host whose PowerShell prints something else than the records that
    are expected: a number, a list of numbers, a record whose
    [TimeCreated] is a number (JSON all the same, which [json.loads]
    reads), or two thousand opening brackets, on which [json.loads]
    raises [RecursionError]. *)
Definition numbered_marker : string :=
  "{" ++ dq ++ "TimeCreated" ++ dq ++ ":5}".

Definition brackets : string :=
  String.concat EmptyString (repeat "[" 2000).

Definition loads_plain (s : string) : result PyVal :=
  if String.eqb s "5" then Ok (PInt 5)
  else if String.eqb s "[1,2]" then Ok (PList [PInt 1; PInt 2])
  else if String.eqb s numbered_marker
  then Ok (PDict [("TimeCreated", PInt 5)])
  else if String.eqb s brackets
  then Err (Exn "RecursionError"
                "maximum recursion depth exceeded while decoding a JSON array from a unicode string")
  else loads s.

Definition plain_json : Interpreter := {|
  json_loads := loads_plain;
  py_repr := repr;
  datetime := Z;
  fromisoformat := isoparse;
  astimezone := Ok;
  strftime := local_text;
  format_exc := fun e => "Traceback (most recent call last):" ++ nl
                         ++ exn_type e ++ ": " ++ exn_text e ++ nl;
  format_rest := fun _ _ => Err (Exn "ValueError" "unsupported replacement field")
|}.

Definition numbered_boot : World :=
  world configured
        [done "10.0.0.5"; done boot_time; done EmptyString; done "5"]
        [None; None].

Definition listed_boot : World :=
  world configured
        [done "10.0.0.5"; done boot_time; done EmptyString; done "[1,2]"]
        [None].

(** The crash-marker query prints a record whose [TimeCreated] is 5,
    alone and in a whole boot; it prints the brackets. *)
Definition marker_of_5 : World := world configured [done numbered_marker] [].

Definition marker_of_5_boot : World :=
  world configured [done "10.0.0.5"; done boot_time; done numbered_marker]
        [None].

Definition marker_of_brackets : World := world configured [done brackets] [].

(** Two events as [json.loads] returns them, the second with nothing
    but an id. *)
Definition two_events : list PyVal :=
  [PDict [("TimeCreated", PStr "2024-05-01T11:00:00.0000000Z");
          ("Id", PInt 7031);
          ("ProviderName", PStr "Service Control Manager");
          ("Message", PStr service_failed)];
   PDict [("Id", PInt 41)]].

End Reference.


(** * Observing a run

    What a run did besides printing, and how much of the world it used
    up.  A process started or a session opened takes the next outcome
    of its list; printing takes nothing. *)
Definition deeds (effects : list Effect) : list Effect :=
  List.filter (fun e => match e with Printed _ => false | _ => true end)
              effects.

Definition spawns (effects : list Effect) : nat :=
  length (List.filter
            (fun e => match e with Spawned _ => true | _ => false end)
            effects).

Definition sessions (effects : list Effect) : nat :=
  length (List.filter
            (fun e => match e with SmtpSession _ _ _ _ _ => true | _ => false end)
            effects).

(** From [w] to [w']: same environment, host name and clock; [done] is
    what was done in between, printing apart; one outcome was used for
    each process and each session in [done]. *)
Definition advances (w w' : World) (done : list Effect) : Prop :=
  environ w' = environ w
  /\ hostname w' = hostname w
  /\ clock w' = clock w
  /\ deeds (journal w') = (deeds (journal w) ++ done)%list
  /\ procs w' = drop (spawns done) (procs w)
  /\ smtp w' = drop (sessions done) (smtp w).

(** [m], run from [w], ends with [o], having done [done]. *)
Definition does {A} (m : M A) (w : World) (o : outcome A)
  (done : list Effect) : Prop :=
  exists w', m w = (o, w') /\ advances w w' done.

(** A computation that keeps the books: whatever it is run from, what it
    did accounts for what it used. *)
Definition tracked {A} (m : M A) : Prop :=
  forall w, exists o done, does m w o done.

(** Two worlds that differ at most in what their SMTP sessions bring and
    in what was printed. *)
Definition agree (w1 w2 : World) : Prop :=
  environ w1 = environ w2
  /\ hostname w1 = hostname w2
  /\ clock w1 = clock w2
  /\ procs w1 = procs w2
  /\ deeds (journal w1) = deeds (journal w2).

(** A computation on which the outcomes of SMTP sessions have no
    bearing: from worlds that agree it ends the same way, in worlds that
    agree. *)
Definition blind {A} (m : M A) : Prop :=
  forall w1 w2, agree w1 w2 ->
    fst (m w1) = fst (m w2) /\ agree (snd (m w1)) (snd (m w2)).

(** What [run_ps code] returns or raises on the outcomes to come. *)
Definition run_result(code : string) (outcomes : list ProcOutcome)
  : outcome string :=
  match outcomes with
  | [] => Raise (Exc (Exn "OSError" "no process can be started"))
  | ProcRaise e :: _ => Raise (Exc e)
  | ProcDone out err rc :: _ =>
      if rc =? 0 then Ret (strip out)
      else Raise (Exc (powershell_failed code (strip out) (strip err)))
  end.

(** The client that an environment configures: what
    [build_sender_from_env] returns. *)
Definition sender_of (env : gmap string string) : option EmailSender :=
  match env !! "EMAIL_ADDRESS", env !! "EMAIL_PASSWORD" with
  | Some a, Some p =>
      if str_truthy a && str_truthy p
      then Some {| smtp_server := "smtp.gmail.com"; port := 587;
                   login := a; password := p;
                   default_recipient :=
                     env_or (env !! "MAIN_EMAIL_ADDRESS") (Some a) |}
      else None
  | _, _ => None
  end.

(** The session that hands [message] to the server of [sender]. *)
Definition session_of (sender : EmailSender) (message : Mail) : Effect :=
  SmtpSession (smtp_server sender) (port sender) (login sender)
              (password sender) message.

(** The report that [sendException] sends about [e], and the boot
    mail. *)
Definition report_mail `{Interpreter} (sender : EmailSender) (e : exn)
  : Mail :=
  {| mail_from := login sender;
     mail_to := default_recipient sender;
     mail_subject := "Exception Occurred in Script";
     mail_body := "
        <h1>Exception Report</h1>
        <p><strong>Type:</strong> " ++ exn_type e ++ "</p>
        <p><strong>Message:</strong> " ++ exn_text e ++ "</p>
        <p><strong>Traceback:</strong></p>
        <pre>" ++ format_exc e ++ "</pre>
        ";
     mail_html := true |}.

Definition boot_mail (sender : EmailSender) (subj html : string) : Mail :=
  {| mail_from := login sender;
     mail_to := default_recipient sender;
     mail_subject := subj; mail_body := html; mail_html := true |}.

(** The probe that [main] sends first when [DEBUG] is on. *)
Definition probe_mail `{Interpreter} (sender : EmailSender)
  (machine : string) (ips : list string) : Mail :=
  {| mail_from := login sender;
     mail_to := default_recipient sender;
     mail_subject := "[BOOT-TEST] " ++ machine;
     mail_body := "Probe. IPs=" ++ repr_ips ips;
     mail_html := false |}.

(** What a query of [get_recent_errors_near] yields on the outcomes to
    come: the events, when the process ends with code 0 and its output
    is accepted; nothing otherwise. *)
Definition answer_of `{Interpreter} (outcomes : list ProcOutcome)
  : option PyVal :=
  match run_result EmptyString outcomes with
  | Ret out =>
      match events_of_output out with
      | Ok events => Some events
      | Err _ => None
      end
  | Raise _ => None
  end.

(** The events that [get_recent_errors_near] returns once its query
    [code] is built, and the processes it starts for them: the answer
    to [code]; when there is none, the answer to the query without a
    window; when that has none either, no events. *)
Definition events_on `{Interpreter} (outcomes : list ProcOutcome) : PyVal :=
  match answer_of outcomes with
  | Some events => events
  | None => default (PList []) (answer_of (drop 1 outcomes))
  end.

Definition queries_on `{Interpreter} (code : string) (limit : Z)
  (outcomes : list ProcOutcome) : list Effect :=
  Spawned (ps_argv code)
  :: match answer_of outcomes with
     | Some _ => []
     | None => [Spawned (ps_argv (recent_query limit))]
     end.

(** What the [try] block of [main] around [get_recent_errors_near]
    comes to, hours and limit being 6 and 10: the events, or the
    exception that the handler reports, and the processes started.
    [len(recent_errors)] is evaluated inside the block. *)
Definition fetched `{Interpreter} (ref_time : option string)
  (outcomes : list ProcOutcome) : result PyVal * list Effect :=
  match build_query ref_time 6 10 with
  | Err e => (Err e, [])
  | Ok code =>
      (match py_len (events_on outcomes) with
       | Ok _ => Ok (events_on outcomes)
       | Err e => Err e
       end,
       queries_on code 10 outcomes)
  end.

(** The world with other outcomes for its SMTP sessions. *)
Definition with_smtp (outcomes : list (option exn)) (w : World) : World :=
  {| environ := environ w; hostname := hostname w; clock := clock w;
     procs := procs w; smtp := outcomes; journal := journal w |}.

(** What the gathering steps of [main] come to, as functions of the
    environment and of the outcomes to come: the machine name, the
    addresses, the crash marker, and the marker with the reference time
    taken from it. *)
Definition machine_of (w : World) : string :=
  match environ w !! "COMPUTERNAME" with
  | Some n => if str_truthy n then n else hostname w
  | None => hostname w
  end.

Definition addresses (env : gmap string string) (outcomes : list ProcOutcome)
  : list string :=
  match run_result ipv4_query outcomes with
  | Ret out =>
      match detected_lines out with
      | [] => env_fallback (env !! "MACHINE_IP")
      | found => found
      end
  | Raise _ => env_fallback (env !! "MACHINE_IP")
  end.

Definition marker_on `{Interpreter} (outcomes : list ProcOutcome)
  : outcome (option (list (string * PyVal))) :=
  match run_result crash_query outcomes with
  | Ret out => marker_of_output out
  | Raise r => Raise r
  end.

Definition reference_on `{Interpreter} (outcomes : list ProcOutcome)
  : outcome (option (list (string * PyVal)) * option string) :=
  match marker_on outcomes with
  | Ret marker =>
      match marker_time marker with
      | Ok time => Ret (marker, time)
      | Err e => Raise (Exc e)
      end
  | Raise r => Raise r
  end.

(** Does the character occur in the text? *)
Fixpoint mentions (c : ascii) (s : string) : bool :=
  match s with
  | EmptyString => false
  | String a r => Ascii.eqb a c || mentions c r
  end.

(** * Properties *)

(** Unfolding the monad. *)
Ltac unfold_monad :=
  unfold mbind, M_bind, result_bind, bind, rbind, mret, M_ret, result_ret,
    ret, raise, exit_with, lift, finish, try_except, rcatch, getenv, print
    in *.

Lemma str_truthy_nonempty (s : string) :
  str_truthy s = true <-> s <> EmptyString.
Proof.
  unfold str_truthy. destruct s; simpl; split; congruence.
Qed.

(** ** Building the mail client *)

Lemma build_sender_from_env_unfold (w : World) :
  build_sender_from_env w =
  (Ret match environ w !! "EMAIL_ADDRESS", environ w !! "EMAIL_PASSWORD" with
       | Some a, Some p =>
           if str_truthy a && str_truthy p
           then Some {| smtp_server := "smtp.gmail.com"; port := 587;
                        login := a; password := p;
                        default_recipient :=
                          env_or (environ w !! "MAIN_EMAIL_ADDRESS") (Some a) |}
           else None
       | _, _ => None
       end, w).
Proof.
  unfold build_sender_from_env. unfold_monad.
  destruct (environ w !! "EMAIL_ADDRESS") as [a|];
    destruct (environ w !! "EMAIL_PASSWORD") as [p|]; try reflexivity.
  destruct (str_truthy a && str_truthy p); reflexivity.
Qed.

Lemma env_or_some (x : option string) (a : string) :
  str_truthy a = true ->
  exists r, env_or x (Some a) = Some r /\ str_truthy r = true.
Proof.
  intros Ha. unfold env_or. destruct x as [s|]; [|eauto].
  destruct (str_truthy s) eqn:Hs; eauto.
Qed.

(** A client that is returned is fully configured. *)
Lemma configured_client (w0 : World) (sender : EmailSender) :
  fst (build_sender_from_env w0) = Ret (Some sender) ->
  environ w0 !! "EMAIL_ADDRESS" = Some (login sender)
  /\ environ w0 !! "EMAIL_PASSWORD" = Some (password sender)
  /\ login sender <> EmptyString
  /\ password sender <> EmptyString
  /\ exists r, default_recipient sender = Some r /\ r <> EmptyString.
Proof.
  rewrite build_sender_from_env_unfold. simpl.
  destruct (environ w0 !! "EMAIL_ADDRESS") as [a0|]; [|discriminate].
  destruct (environ w0 !! "EMAIL_PASSWORD") as [p0|]; [|discriminate].
  destruct (str_truthy a0) eqn:Ea; [|discriminate].
  destruct (str_truthy p0) eqn:Ep; [|discriminate].
  simpl. intros [= <-]. simpl.
  repeat split; try (apply str_truthy_nonempty; assumption).
  destruct (env_or_some (environ w0 !! "MAIN_EMAIL_ADDRESS") a0 Ea)
    as (r & Hr & Hr').
  exists r. split; [exact Hr | apply str_truthy_nonempty; exact Hr'].
Qed.

(** C9: when [EMAIL_ADDRESS] is set and [EMAIL_PASSWORD] is not,
    [build_sender_from_env] returns [None]; and a client that it does
    return is never partly configured: its login and password are the
    two variables, both non-empty, and it has a non-empty default
    recipient. *)
Theorem no_password_no_client (w : World) :
  is_Some (environ w !! "EMAIL_ADDRESS") ->
  environ w !! "EMAIL_PASSWORD" = None ->
  build_sender_from_env w = (Ret None, w)
  /\ forall w0 sender,
       fst (build_sender_from_env w0) = Ret (Some sender) ->
       environ w0 !! "EMAIL_ADDRESS" = Some (login sender)
       /\ environ w0 !! "EMAIL_PASSWORD" = Some (password sender)
       /\ login sender <> EmptyString
       /\ password sender <> EmptyString
       /\ exists r, default_recipient sender = Some r /\ r <> EmptyString.
Proof.
  intros [a Ha] Hp. split.
  - rewrite build_sender_from_env_unfold, Ha, Hp. reflexivity.
  - apply configured_client.
Qed.

Section Facts.

Context `{Interpreter}.

(** ** Running PowerShell *)

Lemma run_ps_unfold (code : string) (w : World) :
  run_ps code w =
  let started := log_effect (Spawned (ps_argv code)) w in
  match procs w with
  | [] => (Raise (Exc (Exn "OSError" "no process can be started")), started)
  | ProcRaise e :: _ => (Raise (Exc e), pop_proc started)
  | ProcDone out err rc :: _ =>
      if rc =? 0 then (Ret (strip out), pop_proc started)
      else (Raise (Exc (powershell_failed code (strip out) (strip err))),
            pop_proc started)
  end.
Proof.
  unfold run_ps, subprocess_run. unfold_monad.
  destruct (procs w) as [|[e|out err rc] rest]; try reflexivity.
  simpl. destruct (rc =? 0); reflexivity.
Qed.

(** One call starts one process and touches nothing else; it never
    raises [SystemExit]. *)
Lemma run_ps_effect (code : string) (w : World) :
  journal (snd (run_ps code w)) = (journal w ++ [Spawned (ps_argv code)])%list
  /\ environ (snd (run_ps code w)) = environ w
  /\ procs (snd (run_ps code w)) = tail (procs w)
  /\ smtp (snd (run_ps code w)) = smtp w
  /\ forall msg, fst (run_ps code w) <> Raise (SystemExit msg).
Proof.
  rewrite run_ps_unfold.
  destruct (procs w) as [|[e|out err rc] rest] eqn:E; simpl;
    try destruct (rc =? 0); simpl; rewrite ?E; repeat split; congruence.
Qed.

(** ** Local time *)

(** C8: when the text cannot be parsed as a timestamp, that is when
    [datetime.fromisoformat] raises on it (its Z written as +00:00),
    [fmt_dt_local] returns the text unchanged; and [fmt_dt_local] raises
    for no input at all. *)
Theorem fmt_dt_local_keeps_unparsable (s : string) (e : exn) :
  fromisoformat (replace_char "Z" "+00:00" s) = Err e ->
  fmt_dt_local (PStr s) = Ok (PStr s)
  /\ forall v, exists r, fmt_dt_local v = Ok r.
Proof.
  intros Hparse. split.
  - unfold fmt_dt_local, fmt_dt_local_try. unfold_monad.
    rewrite Hparse. reflexivity.
  - intros v. unfold fmt_dt_local, rcatch.
    destruct (fmt_dt_local_try v) as [r|e']; eauto.
Qed.

(** Whatever fails on the way, the input comes back. *)
Lemma fmt_dt_local_cases (v : PyVal) :
  fmt_dt_local v = Ok v \/
  exists s dt local text,
    v = PStr s /\ fromisoformat (replace_char "Z" "+00:00" s) = Ok dt
    /\ astimezone dt = Ok local
    /\ strftime local "%Y-%m-%d %H:%M:%S %Z" = Ok text
    /\ fmt_dt_local v = Ok (PStr text).
Proof.
  unfold fmt_dt_local, fmt_dt_local_try. unfold_monad.
  destruct v; try (left; reflexivity).
  destruct (fromisoformat _) as [dt|] eqn:E1; [|left; reflexivity].
  destruct (astimezone dt) as [local|] eqn:E2; [|left; reflexivity].
  destruct (strftime local _) as [text|] eqn:E3; [|left; reflexivity].
  right. exists s, dt, local, text. auto.
Qed.

(** ** The report *)

(** C7: for the empty sequence of events, the document that [make_html]
    returns ends in the events table whose body is the single row
    [<tr><td colspan='5'>(none)</td></tr>]: one row, one cell, the text
    (none), spanning 5 columns, under a header of 5 columns (UTC, Local,
    ID, Provider, Message).  [make_html] returns unless the crash block
    cannot be rendered, and always when there is no crash marker. *)
Theorem empty_errors_one_placeholder_row (machine : string)
  (ips : list string) (boot_iso : string)
  (crash : option (list (string * PyVal))) (w : World) :
  match make_html machine ips boot_iso crash (PList []) w with
  | (Ret html, w') =>
      w' = w /\
      exists head,
        html = head ++ table_head ++ "<tr><td colspan='5'>(none)</td></tr>"
               ++ table_foot
  | (Raise (Exc e), _) => crash_block crash = Err e
  | (Raise (SystemExit _), _) => False
  end
  /\ (crash = None ->
      exists html, fst (make_html machine ips boot_iso crash (PList []) w)
                   = Ret html)
  /\ table_body EmptyString = "<tr><td colspan='5'>(none)</td></tr>"
  /\ count "<tr>" (table_body EmptyString) = 1%nat
  /\ count "<td" (table_body EmptyString) = 1%nat
  /\ count "<th>" table_head = 5%nat
  /\ table_head = "
    <h3>Recent Critical/Error events</h3>
    <table border=" ++ dq ++ "1" ++ dq ++ " cellpadding=" ++ dq ++ "6" ++ dq ++ " cellspacing=" ++ dq ++ "0" ++ dq ++ ">
      <thead>
        <tr><th>UTC</th><th>Local</th><th>ID</th><th>Provider</th><th>Message</th></tr>
      </thead>
      <tbody>".
Proof.
  split; [|split; [|repeat split; vm_compute; reflexivity]].
  - unfold make_html. unfold_monad.
    destruct (fmt_dt_local_cases (PStr boot_iso)) as [E|(s & dt & l & t & _ & _ & _ & _ & E)];
      rewrite E; clear E;
      (destruct (crash_block crash) as [block|e]; simpl;
       [split; [reflexivity|]; eexists; reflexivity
       | reflexivity]).
  - intros ->. unfold make_html. unfold_monad.
    destruct (fmt_dt_local_cases (PStr boot_iso)) as [E|(s & dt & l & t & _ & _ & _ & _ & E)];
      rewrite E; simpl; eauto.
Qed.

(** ** The crash marker *)

Lemma get_latest_crash_marker_unfold (w : World) :
  get_latest_crash_marker w =
  match run_ps crash_query w with
  | (Ret out, w') => (marker_of_output out, w')
  | (Raise r, w') => (Raise r, w')
  end.
Proof.
  unfold get_latest_crash_marker. unfold_monad.
  destruct (run_ps crash_query w) as [[out|r] w']; reflexivity.
Qed.

Lemma truthy_get_or (fields : list (string * PyVal)) :
  truthy (get_or "TimeCreated" PNone fields) = true ->
  exists v, dict_get "TimeCreated" fields = Some v /\ truthy v = true.
Proof.
  unfold get_or. destruct (dict_get "TimeCreated" fields) as [v|]; simpl.
  - eauto.
  - discriminate.
Qed.

(** X22: [get_latest_crash_marker] returns [None] or a dict with a
    [TimeCreated] field that is present and truthy; when the output of
    the query is empty, makes [json.loads] raise [JSONDecodeError], is
    no dict, or has no [TimeCreated], the result is [None].  A marker
    that is returned is non-empty; when its time is text, that text is
    not empty and is what [main] takes as the reference time. *)
Theorem crash_marker_has_time (w : World) :
  (forall fields w',
     get_latest_crash_marker w = (Ret (Some fields), w') ->
     exists v,
       dict_get "TimeCreated" fields = Some v /\ truthy v = true
       /\ fields <> []
       /\ forall s, v = PStr s ->
            marker_time (Some fields) = Ok (Some s) /\ s <> EmptyString)
  /\ (forall out w',
        run_ps crash_query w = (Ret out, w') ->
        out = EmptyString
        \/ (exists e, json_loads out = Err e
                      /\ exn_type e = "JSONDecodeError")
        \/ (exists v, json_loads out = Ok v /\ forall f, v <> PDict f)
        \/ (exists f, json_loads out = Ok (PDict f)
                      /\ dict_get "TimeCreated" f = None) ->
        get_latest_crash_marker w = (Ret None, w')).
Proof.
  split.
  - intros fields w'. rewrite get_latest_crash_marker_unfold.
    destruct (run_ps crash_query w) as [[out|r] w1]; [|discriminate].
    unfold marker_of_output.
    destruct (str_truthy out); [|discriminate].
    destruct (json_loads out) as [[]|e]; try discriminate.
    + destruct (truthy (get_or "TimeCreated" PNone fields0)) eqn:Ht;
        [|discriminate].
      intros [= -> ->].
      destruct (truthy_get_or _ Ht) as (v & Hv & Hv').
      exists v. repeat split; try assumption.
      * intros ->. discriminate.
      * subst v. unfold marker_time, get_or. rewrite Hv.
        destruct fields; [discriminate | reflexivity].
      * subst v. simpl in Hv'. apply str_truthy_nonempty. exact Hv'.
    + destruct (String.eqb _ _); discriminate.
  - intros out w' Hrun Hout. rewrite get_latest_crash_marker_unfold, Hrun.
    unfold marker_of_output. f_equal.
    destruct Hout as [-> | [(e & -> & He) | [(v & -> & Hv) | (f & -> & Hf)]]].
    + reflexivity.
    + rewrite He. destruct (str_truthy out); reflexivity.
    + destruct (str_truthy out); [|reflexivity].
      destruct v; try reflexivity. exfalso. eapply Hv. reflexivity.
    + destruct (str_truthy out); [|reflexivity].
      unfold get_or. rewrite Hf. reflexivity.
Qed.

(** C10, where the code departs from it.  Line 128 asks that
    [TimeCreated] be truthy, not that it be text: a marker whose
    [TimeCreated] is a number, [true], a list or a dict is returned, and
    it is no reference time, for line 299 of [main] concatenates it to a
    [str] and raises [TypeError].  And an output on which [json.loads]
    raises anything but [JSONDecodeError] does not give [None]: the
    exception leaves [get_latest_crash_marker]. *)
Theorem marker_time_need_not_be_text (w : World) :
  (forall out w' fields v,
     run_ps crash_query w = (Ret out, w') ->
     str_truthy out = true ->
     json_loads out = Ok (PDict fields) ->
     dict_get "TimeCreated" fields = Some v ->
     truthy v = true ->
     (forall s, v <> PStr s) ->
     get_latest_crash_marker w = (Ret (Some fields), w')
     /\ marker_time (Some fields)
        = Err (Exn "TypeError"
                   ("can only concatenate str (not " ++ dq ++ type_name v
                    ++ dq ++ ") to str")))
  /\ (forall out w' e,
        run_ps crash_query w = (Ret out, w') ->
        str_truthy out = true ->
        json_loads out = Err e ->
        String.eqb (exn_type e) "JSONDecodeError" = false ->
        get_latest_crash_marker w = (Raise (Exc e), w')).
Proof.
  split.
  - intros out w' fields v Hrun Hout Hjson Hv Ht Htext.
    rewrite get_latest_crash_marker_unfold, Hrun.
    unfold marker_of_output, marker_time, get_or.
    rewrite Hout, Hjson, Hv, Ht. simpl negb. cbn iota. split; [reflexivity|].
    destruct fields as [|f fields]; [discriminate|].
    destruct v; try reflexivity. exfalso. eapply Htext. reflexivity.
  - intros out w' e Hrun Hout Hjson He.
    rewrite get_latest_crash_marker_unfold, Hrun.
    unfold marker_of_output. rewrite Hout, Hjson, He. reflexivity.
Qed.

(** ** Local addresses *)

(** C6, as the code has it: the list starts as the fallback, which is
    [MACHINE_IP] alone when that variable is set to a non-empty text and
    is empty otherwise; when detection raises, the fallback is returned;
    when detection returns, its addresses replace the fallback if there
    is at least one, and the fallback is kept if there is none.  The
    function never raises. *)
Theorem local_ipv4_list_cases (w : World) :
  (forall ip, environ w !! "MACHINE_IP" = Some ip -> ip <> EmptyString ->
              env_fallback (environ w !! "MACHINE_IP") = [ip])
  /\ (environ w !! "MACHINE_IP" = None
      \/ environ w !! "MACHINE_IP" = Some EmptyString ->
      env_fallback (environ w !! "MACHINE_IP") = [])
  /\ match run_ps ipv4_query w with
     | (Ret out, w') =>
         get_local_ipv4_list w =
         (Ret match detected_lines out with
              | [] => env_fallback (environ w !! "MACHINE_IP")
              | found => found
              end, w')
     | (Raise (Exc _), w') =>
         get_local_ipv4_list w
         = (Ret (env_fallback (environ w !! "MACHINE_IP")), w')
     | (Raise (SystemExit _), _) => False
     end.
Proof.
  split; [|split].
  - intros ip -> Hip. simpl. apply str_truthy_nonempty in Hip.
    rewrite Hip. reflexivity.
  - intros [-> | ->]; reflexivity.
  - pose proof (run_ps_effect ipv4_query w) as (_ & _ & _ & _ & Hexit).
    unfold get_local_ipv4_list. unfold_monad.
    destruct (run_ps ipv4_query w) as [[out|[e|msg]] w']; simpl in *.
    + destruct (detected_lines out); reflexivity.
    + reflexivity.
    + eapply Hexit. reflexivity.
Qed.

(** ** Recent errors *)

(** The fallback of [get_recent_errors_near]: the query without a
    window, once, and the empty list if that fails too. *)
Lemma get_recent_errors_near_unfold (time_iso : option string)
  (hours_before limit : Z) (w : World) :
  get_recent_errors_near time_iso hours_before limit w =
  let fallback w1 :=
    match run_ps (recent_query limit) w1 with
    | (Ret out2, w2) =>
        (Ret match events_of_output out2 with
             | Ok events => events
             | Err _ => PList []
             end, w2)
    | (Raise _, w2) => (Ret (PList []), w2)
    end in
  match build_query time_iso hours_before limit with
  | Err e => (Raise (Exc e), w)
  | Ok ps =>
      match run_ps ps w with
      | (Ret out, w1) =>
          match events_of_output out with
          | Ok events => (Ret events, w1)
          | Err _ => fallback w1
          end
      | (Raise _, w1) => fallback w1
      end
  end.
Proof.
  unfold get_recent_errors_near. unfold_monad.
  destruct (build_query time_iso hours_before limit) as [ps|e]; [|reflexivity].
  assert (Hfb : forall w1,
    match
      match run_ps (recent_query limit) w1 with
      | (Ret a, w') =>
          match events_of_output a with
          | Ok a0 => fun w0 : World => (Ret a0, w0)
          | Err e => fun w0 : World => (Raise (Exc e), w0)
          end w'
      | (Raise r, w') => (Raise r, w')
      end
    with
    | (Raise (Exc _), w') => (Ret (PList []), w')
    | other => other
    end =
    match run_ps (recent_query limit) w1 with
    | (Ret out2, w2) =>
        (Ret match events_of_output out2 with
             | Ok events => events
             | Err _ => PList []
             end, w2)
    | (Raise _, w2) => (Ret (PList []), w2)
    end).
  { intros w1.
    pose proof (run_ps_effect (recent_query limit) w1) as (_ & _ & _ & _ & Hexit).
    destruct (run_ps (recent_query limit) w1) as [[out2|[e|msg]] w2]; simpl in *.
    - destruct (events_of_output out2); reflexivity.
    - reflexivity.
    - exfalso. eapply Hexit. reflexivity. }
  pose proof (run_ps_effect ps w) as (_ & _ & _ & _ & Hexit).
  simpl.
  destruct (run_ps ps w) as [[out|[e|msg]] w1]; simpl in *.
  - destruct (events_of_output out); [reflexivity | apply Hfb].
  - apply Hfb.
  - exfalso. eapply Hexit. reflexivity.
Qed.

(** Formatting text that holds no brace leaves it as it is. *)
Lemma format_from_text (s rest : string) (hrs : Z) :
  has_brace s = false ->
  format_from InText (s ++ rest) hrs =
  rbind (format_from InText rest hrs) (fun r => Ok (s ++ r)).
Proof.
  induction s as [|a s IH]; intros Hs.
  - change (EmptyString ++ rest) with rest.
    destruct (format_from InText rest hrs); reflexivity.
  - change (String a s ++ rest) with (String a (s ++ rest)).
    simpl in Hs. apply orb_false_iff in Hs as [Ha Hs].
    apply orb_false_iff in Ha as [Ha1 Ha2].
    simpl. rewrite Ha1, Ha2, (IH Hs). unfold emit.
    destruct (format_from InText rest hrs); reflexivity.
Qed.

Lemma append_assoc (a b c : string) : (a ++ b) ++ c = a ++ b ++ c.
Proof.
  induction a as [|x a IH]; [reflexivity|].
  change (String x ((a ++ b) ++ c) = String x (a ++ b ++ c)).
  f_equal. exact IH.
Qed.

Lemma window_query_without_brace (time_iso : string) (hours_before limit : Z) :
  has_brace time_iso = false ->
  window_query time_iso hours_before limit
  = Ok (window_query_text time_iso hours_before limit).
Proof.
  intros Hb. unfold window_query, str_format, window_prelude_template.
  rewrite format_from_text by reflexivity.
  rewrite format_from_text by exact Hb.
  unfold window_query_text.
  change (format_from InText
            "', [CultureInfo], [Styles]); $start = $t.AddHours(-{hrs}); "
            hours_before)
    with (Ok ("', [CultureInfo], [Styles]); $start = $t.AddHours(-"
              ++ of_int hours_before ++ "); ") : result string).
  simpl rbind. rewrite !append_assoc. reflexivity.
Qed.

(** A windowed query never reads like the query without a window. *)
Lemma window_query_is_not_recent_query (time_iso : string)
  (hours_before limit limit' : Z) :
  window_query time_iso hours_before limit <> Ok (recent_query limit').
Proof.
  unfold window_query, str_format, window_prelude_template.
  change (format_from InText ("[CultureInfo] = [System.Globalization.CultureInfo]::InvariantCulture; [Styles] = [System.Globalization.DateTimeStyles]::AdjustToUniversal; $t=[datetime]::Parse('" ++ time_iso ++ "', [CultureInfo], [Styles]); $start = $t.AddHours(-{hrs}); ") hours_before)
    with (emit "[" (format_from InText ("CultureInfo] = [System.Globalization.CultureInfo]::InvariantCulture; [Styles] = [System.Globalization.DateTimeStyles]::AdjustToUniversal; $t=[datetime]::Parse('" ++ time_iso ++ "', [CultureInfo], [Styles]); $start = $t.AddHours(-{hrs}); ") hours_before)).
  destruct (format_from InText _ hours_before) as [s|e]; simpl.
  - unfold recent_query. simpl. intros [= Hhead _]. 
  - discriminate.
Qed.

(** Whatever the reference time, the windowed query opens with an
    assignment to a type literal. *)
Lemma prefixb_append (p rest : string) : prefixb p (p ++ rest) = true.
Proof.
  induction p as [|a p IH]; [reflexivity|].
  change (Ascii.eqb a a && prefixb p (p ++ rest) = true).
  rewrite Ascii.eqb_refl. exact IH.
Qed.

Lemma window_query_opens_with_assignment (time_iso : string)
  (hours_before limit : Z) (code : string) :
  window_query time_iso hours_before limit = Ok code ->
  prefixb "[CultureInfo] = [System.Globalization.CultureInfo]::InvariantCulture; "
          code = true.
Proof.
  unfold window_query, str_format, window_prelude_template.
  change (format_from InText ("[CultureInfo] = [System.Globalization.CultureInfo]::InvariantCulture; [Styles] = [System.Globalization.DateTimeStyles]::AdjustToUniversal; $t=[datetime]::Parse('" ++ time_iso ++ "', [CultureInfo], [Styles]); $start = $t.AddHours(-{hrs}); ") hours_before)
    with (format_from InText ("[CultureInfo] = [System.Globalization.CultureInfo]::InvariantCulture; " ++ ("[Styles] = [System.Globalization.DateTimeStyles]::AdjustToUniversal; $t=[datetime]::Parse('" ++ time_iso ++ "', [CultureInfo], [Styles]); $start = $t.AddHours(-{hrs}); ")) hours_before).
  rewrite format_from_text by reflexivity.
  destruct (format_from InText _ hours_before) as [r|e]; unfold rbind;
    [|discriminate].
  intros [= <-]. rewrite append_assoc. apply prefixb_append.
Qed.

(** C4: without a reference time (the crash marker is absent, and then
    [main] passes [None]) [get_recent_errors_near] builds the query for
    the most recent [limit] events overall; every process it starts, one
    or two of them, runs that query, and no windowed query reads like
    it. *)
Theorem no_reference_time_no_window (hours_before limit : Z) (w : World) :
  build_query None hours_before limit = Ok (recent_query limit)
  /\ marker_time None = Ok None
  /\ (exists n, (n = 1 \/ n = 2)%nat /\
        journal (snd (get_recent_errors_near None hours_before limit w))
        = (journal w
           ++ repeat (Spawned (ps_argv (recent_query limit))) n)%list)
  /\ forall time_iso h,
       window_query time_iso h limit <> Ok (recent_query limit).
Proof.
  split; [reflexivity|]. split; [reflexivity|].
  split; [|intros; apply window_query_is_not_recent_query].
  rewrite get_recent_errors_near_unfold. simpl.
  pose proof (run_ps_effect (recent_query limit) w) as (J1 & _).
  destruct (run_ps (recent_query limit) w) as [[out|r] w1]; simpl in *.
  - destruct (events_of_output out); simpl.
    + exists 1%nat. split; [auto | exact J1].
    + pose proof (run_ps_effect (recent_query limit) w1) as (J2 & _).
      exists 2%nat. split; [auto|].
      destruct (run_ps (recent_query limit) w1) as [[out2|r2] w2];
        simpl in *; rewrite J2, J1, <- app_assoc; reflexivity.
  - pose proof (run_ps_effect (recent_query limit) w1) as (J2 & _).
    exists 2%nat. split; [auto|].
    destruct (run_ps (recent_query limit) w1) as [[out2|r2] w2];
      simpl in *; rewrite J2, J1, <- app_assoc; reflexivity.
Qed.

(** C3, where the code departs from it: a reference time whose first
    brace is a closing one that stands alone makes [str.format] raise
    [ValueError] while the query is being built, before the first [try];
    the exception reaches the caller and no process is started. *)
Theorem lone_closing_brace_raises (before after : string)
  (hours_before limit : Z) (w : World) :
  has_brace before = false ->
  prefixb "}" after = false ->
  get_recent_errors_near (Some (before ++ "}" ++ after)) hours_before limit w
  = (Raise (Exc (Exn "ValueError" "Single '}' encountered in format string")),
     w).
Proof.
  intros Hbefore Hafter.
  assert (Htruthy : str_truthy (before ++ "}" ++ after) = true)
    by (destruct before; reflexivity).
  unfold get_recent_errors_near, build_query. rewrite Htruthy.
  unfold window_query, str_format, window_prelude_template.
  rewrite format_from_text by reflexivity.
  rewrite !append_assoc.
  rewrite format_from_text by exact Hbefore.
  change (format_from InText ("}" ++ after ++ "', [CultureInfo], [Styles]); $start = $t.AddHours(-{hrs}); ") hours_before)
    with (format_from Closed (after ++ "', [CultureInfo], [Styles]); $start = $t.AddHours(-{hrs}); ") hours_before).
  destruct after as [|c r]; [reflexivity|].
  change (Ascii.eqb "}" c && true = false) in Hafter.
  rewrite andb_true_r in Hafter.
  change (format_from Closed (String c r ++ "', [CultureInfo], [Styles]); $start = $t.AddHours(-{hrs}); ") hours_before)
    with (if Ascii.eqb c "}"
          then emit c (format_from InText (r ++ "', [CultureInfo], [Styles]); $start = $t.AddHours(-{hrs}); ") hours_before)
          else Err single_close).
  rewrite Ascii.eqb_sym, Hafter. reflexivity.
Qed.

(** X1: for every reference time without a brace, and for none at all,
    the call returns, after the query it built and at most one fallback
    query. *)
Lemma recent_errors_return_without_brace (time_iso : option string)
  (hours_before limit : Z) (w : World) :
  match time_iso with Some t => has_brace t = false | None => True end ->
  exists code events n,
    build_query time_iso hours_before limit = Ok code
    /\ fst (get_recent_errors_near time_iso hours_before limit w) = Ret events
    /\ journal (snd (get_recent_errors_near time_iso hours_before limit w))
       = (journal w ++ Spawned (ps_argv code)
            :: repeat (Spawned (ps_argv (recent_query limit))) n)%list
    /\ (n <= 1)%nat.
Proof.
  intros Hb.
  assert (exists code, build_query time_iso hours_before limit = Ok code)
    as (code & Hcode).
  { destruct time_iso as [t|]; simpl; [|eauto].
    destruct (str_truthy t); [|eauto].
    rewrite window_query_without_brace by exact Hb. eauto. }
  exists code.
  enough (exists events n,
    fst (get_recent_errors_near time_iso hours_before limit w) = Ret events
    /\ journal (snd (get_recent_errors_near time_iso hours_before limit w))
       = (journal w ++ Spawned (ps_argv code)
            :: repeat (Spawned (ps_argv (recent_query limit))) n)%list
    /\ (n <= 1)%nat) as (events & n & Hgoal).
  { exists events, n. split; [exact Hcode | exact Hgoal]. }
  rewrite get_recent_errors_near_unfold, Hcode. simpl.
  pose proof (run_ps_effect code w) as (J1 & _).
  assert (Hfb : forall w1,
    journal w1 = (journal w ++ [Spawned (ps_argv code)])%list ->
    exists events n,
      fst match run_ps (recent_query limit) w1 with
          | (Ret out2, w2) =>
              (Ret match events_of_output out2 with
                   | Ok events => events
                   | Err _ => PList []
                   end, w2)
          | (Raise _, w2) => (Ret (PList []), w2)
          end = Ret events
      /\ journal (snd match run_ps (recent_query limit) w1 with
                      | (Ret out2, w2) =>
                          (Ret match events_of_output out2 with
                               | Ok events => events
                               | Err _ => PList []
                               end, w2)
                      | (Raise _, w2) => (Ret (PList []), w2)
                      end)
         = (journal w ++ Spawned (ps_argv code)
              :: repeat (Spawned (ps_argv (recent_query limit))) n)%list
      /\ (n <= 1)%nat).
  { intros w1 Hw1.
    pose proof (run_ps_effect (recent_query limit) w1) as (J2 & _).
    destruct (run_ps (recent_query limit) w1) as [[out2|r2] w2]; simpl in *;
      eexists; exists 1%nat; (split; [reflexivity|]); (split; [|lia]);
      rewrite J2, Hw1, <- app_assoc; reflexivity. }
  destruct (run_ps code w) as [[out|r] w1]; simpl in *.
  - destruct (events_of_output out) as [events|e].
    + exists events, 0%nat. split; [reflexivity|].
      split; [exact J1 | lia].
    + apply Hfb. exact J1.
  - apply Hfb. exact J1.
Qed.

End Facts.

(** ** A delivery failure *)

(** X2: [sendEmail] keeps to itself whatever the SMTP session raises:
    with a default recipient at hand it returns, after one session. *)
Lemma sendEmail_swallows_delivery_failure (self : EmailSender)
  (subject body : string) (recipient : option string) (html : bool)
  (w : World) :
  is_Some (default_recipient self) ->
  fst (sendEmail self subject body recipient html w) = Ret tt
  /\ mails (journal (snd (sendEmail self subject body recipient html w)))
     = (mails (journal w)
        ++ [{| mail_from := login self;
               mail_to := pick_recipient self recipient;
               mail_subject := subject; mail_body := body;
               mail_html := html |}])%list.
Proof.
  intros [r Hr]. unfold sendEmail, smtp_send. rewrite Hr. unfold_monad.
  unfold mails.
  destruct recipient as [x|];
    (destruct (smtp w) as [|[e|] rest]; simpl;
     rewrite !omap_app; simpl; rewrite ?app_nil_r, ?app_assoc;
     split; reflexivity).
Qed.

(** The client that [main] builds has a recipient, so the handler around
    the primary send never runs. *)
Lemma built_sender_has_recipient (w : World) (sender : EmailSender) :
  fst (build_sender_from_env w) = Ret (Some sender) ->
  is_Some (default_recipient sender).
Proof.
  intros Hs.
  destruct (configured_client w sender Hs) as (_ & _ & _ & _ & r & Hr & _).
  exists r. exact Hr.
Qed.

(** * The script on the reference platform *)

Section OnReference.

#[local] Existing Instance Reference.interpreter.
#[local] Existing Instance Reference.dotnet.

(** C5: for machine HOST1 and the one address 10.0.0.5 the subject is
    [[BOOT] HOST1 is online — 10.0.0.5], and with no address it is
    [[BOOT] HOST1 is online — no IPs]; these are the subjects of the
    mails that [main] sends on a machine called HOST1 where detection
    finds that address, or none. *)
Theorem subject_of_boot_mail :
  boot_subject "HOST1" ["10.0.0.5"] = "[BOOT] HOST1 is online — 10.0.0.5"
  /\ boot_subject "HOST1" [] = "[BOOT] HOST1 is online — no IPs"
  /\ map mail_subject
         (mails (journal (snd (main (Reference.quiet_boot [None])))))
     = ["[BOOT] HOST1 is online — 10.0.0.5"]
  /\ map mail_subject (mails (journal (snd (main Reference.offline_boot))))
     = ["[BOOT] HOST1 is online — no IPs"].
Proof. repeat split; vm_compute; reflexivity. Qed.

(** C2, where the code departs from it: the SMTP session of the boot
    mail raises.  [sendEmail] prints the failure and returns, so the
    handler of [send_boot_mail] does not run: the send returns, the boot
    mail is the only message handed to SMTP, and no further session is
    used.  On the reference platform, with the server refusing the
    login, the script ends normally, the refused boot mail is the only
    message it tried to send, no failure report among them, and the two
    sessions still available are left unused. *)
Theorem delivery_failure_goes_unreported :
  (forall (I : Interpreter) (sender : EmailSender) (subj html : string)
          (w : World) (e : exn) (rest : list (option exn)),
      is_Some (default_recipient sender) ->
      smtp w = Some e :: rest ->
      fst (send_boot_mail sender subj html w) = Ret tt
      /\ mails (journal (snd (send_boot_mail sender subj html w)))
         = (mails (journal w)
            ++ [{| mail_from := login sender;
                   mail_to := default_recipient sender;
                   mail_subject := subj; mail_body := html;
                   mail_html := true |}])%list
      /\ smtp (snd (send_boot_mail sender subj html w)) = rest)
  /\ fst (script Reference.refused_boot) = Ret tt
  /\ map mail_subject (mails (journal (snd (script Reference.refused_boot))))
     = ["[BOOT] HOST1 is online — 10.0.0.5"]
  /\ List.filter (fun m => String.eqb (mail_subject m) exception_subject)
                 (mails (journal (snd (script Reference.refused_boot))))
     = []
  /\ smtp (snd (script Reference.refused_boot)) = [None; None]
  /\ last (journal (snd (script Reference.refused_boot)))
     = Some (Printed "Failed to send email: (535, b'5.7.8 Username and Password not accepted')").
Proof.
  split; [|repeat split; vm_compute; reflexivity].
  intros I sender subj html w e rest [r Hr] Hsmtp.
  unfold send_boot_mail, sendEmail, smtp_send, _dbg, DEBUG.
  rewrite Hr. unfold_monad. cbn beta. rewrite Hsmtp. simpl. unfold mails.
  destruct (environ w !! "BOOTMAIL_DEBUG") as [v|]; simpl;
    [destruct (String.eqb v "1"); simpl|];
    rewrite !omap_app; simpl; rewrite ?app_nil_r, ?Hr, ?Hsmtp;
    repeat split; reflexivity.
Qed.

(** The boot mail of HOST1 and a server that refuses the login. *)
Lemma delivery_failure_witness :
  fst (send_boot_mail
         {| smtp_server := "smtp.gmail.com"; port := 587;
            login := "boot@example.org"; password := "app-password";
            default_recipient := Some "boot@example.org" |}
         (boot_subject "HOST1" ["10.0.0.5"]) "<h2>PC Boot Notification</h2>"
         (Reference.world Reference.configured [] [Some Reference.refused]))
  = Ret tt.
Proof.
  apply (proj1 delivery_failure_goes_unreported Reference.interpreter
           {| smtp_server := "smtp.gmail.com"; port := 587;
              login := "boot@example.org"; password := "app-password";
              default_recipient := Some "boot@example.org" |}
           (boot_subject "HOST1" ["10.0.0.5"]) "<h2>PC Boot Notification</h2>"
           (Reference.world Reference.configured [] [Some Reference.refused])
           Reference.refused []).
  - exists "boot@example.org". reflexivity.
  - reflexivity.
Defined.

(** The reference time that is a closing brace and nothing else. *)
Lemma lone_closing_brace_witness :
  get_recent_errors_near (Some "}") 6 10 Reference.answered
  = (Raise (Exc (Exn "ValueError" "Single '}' encountered in format string")),
     Reference.answered).
Proof.
  apply (lone_closing_brace_raises EmptyString EmptyString 6 10
           Reference.answered); reflexivity.
Defined.

(** C1, where the code departs from it.  The query that is built for a
    reference time opens with an assignment to a type literal,
    [[CultureInfo] = ...], whatever the reference time is.  When the
    process for it fails, as PowerShell does on a query it rejects, the
    [except] branch runs the query without a window and returns its
    events: for 2024-05-01T12:00:00Z and six hours, the windowed query
    and then the query without a window are started, and the first event
    returned is from 23:59:59 the evening before. *)
Lemma fallback_returns_event_outside_window :
  (forall time_iso hours_before limit code,
     window_query time_iso hours_before limit = Ok code ->
     prefixb "[CultureInfo] = [System.Globalization.CultureInfo]::InvariantCulture; "
             code = true)
  /\ build_query (Some Reference.reference_time) 6 10
     = Ok (window_query_text Reference.reference_time 6 10)
  /\ journal (snd (get_recent_errors_near (Some Reference.reference_time) 6 10
                                          Reference.unanswered))
     = [Spawned (ps_argv (window_query_text Reference.reference_time 6 10));
        Spawned (ps_argv (recent_query 10))]
  /\ exists event others,
       fst (get_recent_errors_near (Some Reference.reference_time) 6 10
                                   Reference.unanswered)
       = Ret (PList (event :: others))
       /\ time_of event = Some 638501183999999999
       /\ Parse Reference.reference_time = Some 638501616000000000
       /\ in_window Reference.reference_time 6 event = false.
Proof.
  split; [intros; eapply window_query_opens_with_assignment; eassumption|].
  split; [vm_compute; reflexivity|].
  split; [vm_compute; reflexivity|].
  eexists. eexists. split; [vm_compute; reflexivity|].
  repeat split; vm_compute; reflexivity.
Qed.

(** C6 as stated fails: detection runs, finds no address, and the list
    returned is the fallback from [MACHINE_IP], not the empty result of
    the detection; and [MACHINE_IP] set to the empty text gives an empty
    fallback, not a list of one element. *)
Lemma detection_without_address_keeps_fallback :
  fst (run_ps ipv4_query Reference.no_address_found) = Ret EmptyString
  /\ detected_lines EmptyString = []
  /\ fst (get_local_ipv4_list Reference.no_address_found)
     = Ret ["192.168.1.50"]
  /\ environ Reference.empty_fallback !! "MACHINE_IP" = Some EmptyString
  /\ fst (get_local_ipv4_list Reference.empty_fallback) = Ret [].
Proof. repeat split; vm_compute; reflexivity. Qed.

(** With [MACHINE_IP] set and detection finding no address, the fallback
    is the one-element list and it is what comes back. *)
Lemma local_ipv4_list_witness :
  env_fallback (environ Reference.no_address_found !! "MACHINE_IP")
  = ["192.168.1.50"]
  /\ fst (get_local_ipv4_list Reference.no_address_found)
     = Ret ["192.168.1.50"].
Proof.
  pose proof (local_ipv4_list_cases Reference.no_address_found)
    as (Hset & _ & Hrun).
  split.
  - apply Hset; [vm_compute; reflexivity | discriminate].
  - destruct (run_ps ipv4_query Reference.no_address_found)
      as [[out|[e|msg]] w'] eqn:E; vm_compute in E; try discriminate.
    injection E as <- <-. rewrite Hrun. vm_compute. reflexivity.
Defined.

(** The text not-a-date is kept as it is. *)
Lemma fmt_dt_local_witness :
  fmt_dt_local (PStr "not-a-date") = Ok (PStr "not-a-date").
Proof.
  apply (fmt_dt_local_keeps_unparsable "not-a-date"
           (Exn "ValueError" "Invalid isoformat string: 'not-a-date'")).
  vm_compute. reflexivity.
Defined.

Example fmt_dt_local_parsable :
  fmt_dt_local (PStr "2024-05-01T08:00:00.0000000Z")
  = Ok (PStr "2024-05-01 08:00:00 UTC").
Proof. vm_compute. reflexivity. Qed.

(** An environment with the address and without the password. *)
Lemma no_password_no_client_witness :
  build_sender_from_env
    (Reference.world (<["EMAIL_ADDRESS" := "boot@example.org"]> ∅) [] [])
  = (Ret None,
     Reference.world (<["EMAIL_ADDRESS" := "boot@example.org"]> ∅) [] []).
Proof.
  apply (no_password_no_client
           (Reference.world (<["EMAIL_ADDRESS" := "boot@example.org"]> ∅) [] [])).
  - exists "boot@example.org". vm_compute. reflexivity.
  - vm_compute. reflexivity.
Defined.

(** No marker when the query prints nothing; the Kernel-Power event,
    with its time, when it prints that. *)
Lemma crash_marker_witness :
  get_latest_crash_marker Reference.no_marker
  = (Ret None, snd (run_ps crash_query Reference.no_marker))
  /\ exists fields v,
       fst (get_latest_crash_marker Reference.marker_found) = Ret (Some fields)
       /\ dict_get "TimeCreated" fields = Some v /\ truthy v = true.
Proof.
  split.
  - apply (crash_marker_has_time Reference.no_marker) with (out := EmptyString).
    + vm_compute. reflexivity.
    + left. reflexivity.
  - destruct (get_latest_crash_marker Reference.marker_found)
      as [[[fields|]|r] w'] eqn:E;
      [|vm_compute in E; discriminate..].
    destruct (proj1 (crash_marker_has_time Reference.marker_found) fields w' E)
      as (v & Hv & Ht & _).
    exists fields, v. auto.
Defined.

(** Without a crash marker the placeholder row is rendered. *)
Lemma empty_errors_witness :
  exists html,
    fst (make_html "HOST1" ["10.0.0.5"] Reference.boot_time None (PList [])
                   (Reference.quiet_boot [None]))
    = Ret html.
Proof.
  apply (empty_errors_one_placeholder_row "HOST1" ["10.0.0.5"]
           Reference.boot_time None (Reference.quiet_boot [None])).
  reflexivity.
Defined.

(** The windowed query fails, the fallback answers: two processes, and
    the call returns. *)
Lemma recent_errors_return_witness :
  exists code events n,
    build_query (Some Reference.reference_time) 6 10 = Ok code
    /\ fst (get_recent_errors_near (Some Reference.reference_time) 6 10
                                   Reference.unanswered) = Ret events
    /\ journal (snd (get_recent_errors_near (Some Reference.reference_time)
                                            6 10 Reference.unanswered))
       = (journal Reference.unanswered ++ Spawned (ps_argv code)
            :: repeat (Spawned (ps_argv (recent_query 10))) n)%list
    /\ (n <= 1)%nat.
Proof.
  apply (recent_errors_return_without_brace (Some Reference.reference_time)
           6 10 Reference.unanswered).
  vm_compute. reflexivity.
Defined.

(** A refused login is printed, not raised. *)
Lemma sendEmail_swallows_witness :
  fst (sendEmail
         {| smtp_server := "smtp.gmail.com"; port := 587;
            login := "boot@example.org"; password := "app-password";
            default_recipient := Some "boot@example.org" |}
         exception_subject "<h1>Exception Report</h1>" None true
         (Reference.world Reference.configured [] [Some Reference.refused]))
  = Ret tt.
Proof.
  apply (sendEmail_swallows_delivery_failure
           {| smtp_server := "smtp.gmail.com"; port := 587;
              login := "boot@example.org"; password := "app-password";
              default_recipient := Some "boot@example.org" |}
           exception_subject "<h1>Exception Report</h1>" None true
           (Reference.world Reference.configured [] [Some Reference.refused])).
  exists "boot@example.org". reflexivity.
Defined.

End OnReference.

(** * More properties *)

(** ** Steps of a run *)

Lemma bind_ret {A B} (m : M A) (k : A -> M B) (w w' : World) (a : A) :
  m w = (Ret a, w') -> (m ≫= k) w = k a w'.
Proof. intros E. unfold mbind, M_bind, bind. rewrite E. reflexivity. Qed.

Lemma bind_raise {A B} (m : M A) (k : A -> M B) (w w' : World) (r : raised) :
  m w = (Raise r, w') -> (m ≫= k) w = (Raise r, w').
Proof. intros E. unfold mbind, M_bind, bind. rewrite E. reflexivity. Qed.

Lemma spawns_app (a b : list Effect) :
  spawns (a ++ b)%list = (spawns a + spawns b)%nat.
Proof. unfold spawns. rewrite List.filter_app, length_app. reflexivity. Qed.

Lemma sessions_app (a b : list Effect) :
  sessions (a ++ b)%list = (sessions a + sessions b)%nat.
Proof. unfold sessions. rewrite List.filter_app, length_app. reflexivity. Qed.

Lemma advances_refl (w : World) : advances w w [].
Proof.
  unfold advances. rewrite app_nil_r. repeat split; reflexivity.
Qed.

Lemma advances_trans (w w1 w2 : World) (a b : list Effect) :
  advances w w1 a -> advances w1 w2 b -> advances w w2 (a ++ b)%list.
Proof.
  intros (E1 & H1 & C1 & D1 & P1 & S1) (E2 & H2 & C2 & D2 & P2 & S2).
  unfold advances.
  rewrite E2, E1, H2, H1, C2, C1, D2, D1, P2, P1, S2, S1, spawns_app,
    sessions_app, !drop_drop, app_assoc.
  repeat split; reflexivity.
Qed.

Lemma deeds_app (a b : list Effect) :
  deeds (a ++ b)%list = (deeds a ++ deeds b)%list.
Proof. apply List.filter_app. Qed.

Lemma advances_print (line : string) (w : World) :
  advances w (log_effect (Printed line) w) [].
Proof.
  unfold advances. simpl. rewrite deeds_app. simpl.
  repeat split; reflexivity.
Qed.

(** The mails of a journal are those of its deeds. *)
Lemma mails_deeds (effects : list Effect) :
  mails (deeds effects) = mails effects.
Proof.
  unfold mails, deeds.
  induction effects as [|[] l IH]; simpl;
    [reflexivity | exact IH | f_equal; exact IH | exact IH].
Qed.

Lemma advances_mails (w w' : World) (done : list Effect) :
  advances w w' done ->
  mails (journal w') = (mails (journal w) ++ mails done)%list.
Proof.
  intros (_ & _ & _ & D & _). rewrite <- mails_deeds, D.
  unfold mails at 1. rewrite omap_app. fold (mails (deeds (journal w))).
  rewrite mails_deeds. reflexivity.
Qed.

Section More.

Context `{Interpreter}.

Lemma dbg_advances (msg : string) (w : World) :
  exists w', _dbg msg w = (Ret tt, w') /\ advances w w' [].
Proof.
  unfold _dbg. destruct (DEBUG w).
  - unfold_monad. eexists. split; [reflexivity | apply advances_print].
  - exists w. split; [reflexivity | apply advances_refl].
Qed.

Lemma run_ps_advances (code : string) (w : World) :
  exists w',
    run_ps code w = (run_result code (procs w), w')
    /\ advances w w' [Spawned (ps_argv code)].
Proof.
  rewrite run_ps_unfold. unfold run_result.
  destruct (procs w) as [|[e|out err rc] rest] eqn:E; simpl;
    try destruct (rc =? 0); eexists; (split; [reflexivity|]);
    unfold advances; simpl; rewrite deeds_app, ?E; repeat split; reflexivity.
Qed.

Lemma run_result_never_exits (code : string) (outcomes : list ProcOutcome)
  (msg : string) :
  run_result code outcomes <> Raise (SystemExit msg).
Proof.
  unfold run_result. destruct outcomes as [|[e|out err rc] rest];
    try destruct (rc =? 0); discriminate.
Qed.

Lemma build_sender_from_env_is_sender_of (w : World) :
  build_sender_from_env w = (Ret (sender_of (environ w)), w).
Proof. apply build_sender_from_env_unfold. Qed.

Lemma sender_of_has_recipient (env : gmap string string) (s : EmailSender) :
  sender_of env = Some s ->
  exists r, default_recipient s = Some r /\ r <> EmptyString.
Proof.
  unfold sender_of.
  destruct (env !! "EMAIL_ADDRESS") as [a|]; [|discriminate].
  destruct (env !! "EMAIL_PASSWORD") as [p|]; [|discriminate].
  destruct (str_truthy a) eqn:Ea; [|discriminate].
  destruct (str_truthy p); [|discriminate].
  intros [= <-]. simpl.
  destruct (env_or_some (env !! "MAIN_EMAIL_ADDRESS") a Ea) as (r & Hr & Hr').
  exists r. split; [exact Hr | apply str_truthy_nonempty; exact Hr'].
Qed.

Lemma get_machine_name_is_machine_of (w : World) :
  get_machine_name w = (Ret (machine_of w), w).
Proof.
  unfold get_machine_name, machine_of. unfold_monad.
  destruct (environ w !! "COMPUTERNAME") as [n|]; [|reflexivity].
  destruct (str_truthy n); reflexivity.
Qed.

Lemma get_local_ipv4_list_advances (w : World) :
  exists w',
    get_local_ipv4_list w = (Ret (addresses (environ w) (procs w)), w')
    /\ advances w w' [Spawned (ps_argv ipv4_query)].
Proof.
  destruct (run_ps_advances ipv4_query w) as (w' & E & A).
  pose proof (run_result_never_exits ipv4_query (procs w)) as Hexit.
  exists w'. split; [|exact A].
  unfold get_local_ipv4_list, addresses. unfold_monad. rewrite E.
  destruct (run_result ipv4_query (procs w)) as [out|[e|msg]].
  - destruct (detected_lines out); reflexivity.
  - reflexivity.
  - exfalso. eapply Hexit. reflexivity.
Qed.

Lemma get_latest_crash_marker_advances (w : World) :
  exists w',
    get_latest_crash_marker w = (marker_on (procs w), w')
    /\ advances w w' [Spawned (ps_argv crash_query)].
Proof.
  destruct (run_ps_advances crash_query w) as (w' & E & A).
  exists w'. split; [|exact A].
  rewrite get_latest_crash_marker_unfold, E. unfold marker_on.
  destruct (run_result crash_query (procs w)); reflexivity.
Qed.

(** One session, whatever it brings. *)
Lemma sendEmail_advances (self : EmailSender) (subject body : string)
  (recipient : option string) (html : bool) (w : World) :
  is_Some recipient \/ is_Some (default_recipient self) ->
  exists w',
    sendEmail self subject body recipient html w = (Ret tt, w')
    /\ advances w w'
         [session_of self
            {| mail_from := login self;
               mail_to := pick_recipient self recipient;
               mail_subject := subject; mail_body := body;
               mail_html := html |}].
Proof.
  intros Hr. unfold sendEmail, smtp_send, session_of.
  assert (Hgo : forall (A : Type) (x y : A),
    match recipient, default_recipient self with
    | None, None => x
    | _, _ => y
    end = y).
  { intros A x y. destruct Hr as [[r ->]|[r ->]]; [reflexivity|].
    destruct recipient; reflexivity. }
  rewrite Hgo. unfold_monad.
  destruct (smtp w) as [|[e|] rest] eqn:E; simpl;
    eexists; (split; [reflexivity|]);
    unfold advances; simpl; rewrite !deeds_app; simpl;
    rewrite ?app_nil_r, ?E; repeat split; reflexivity.
Qed.

Lemma notify_exception_advances (e : exn) (w : World) :
  exists w',
    notify_exception e w = (Ret tt, w')
    /\ advances w w'
         match sender_of (environ w) with
         | Some s => [session_of s (report_mail s e)]
         | None => []
         end.
Proof.
  unfold notify_exception.
  destruct (sender_of (environ w)) as [s|] eqn:Es.
  - destruct (sender_of_has_recipient _ _ Es) as (r & Hr & _).
    destruct (sendEmail_advances s exception_subject (mail_body (report_mail s e))
                None true w) as (w' & E & A).
    { right. exists r. exact Hr. }
    exists w'. split.
    + unfold try_except. erewrite bind_ret by apply build_sender_from_env_is_sender_of.
      rewrite Es.
      assert (E' : sendException s e None w = (Ret tt, w')) by exact E.
      rewrite E'. reflexivity.
    + exact A.
  - exists w. split; [|apply advances_refl].
    unfold try_except. erewrite bind_ret by apply build_sender_from_env_is_sender_of.
    rewrite Es. reflexivity.
Qed.


(** ** Keeping the books *)

Lemma tracked_ret {A} (a : A) : tracked (ret a).
Proof. intros w. exists (Ret a), [], w. split; [reflexivity | apply advances_refl]. Qed.

Lemma tracked_mret {A} (a : A) : tracked (mret a : M A).
Proof. apply tracked_ret. Qed.

Lemma tracked_raise {A} (e : exn) : tracked (raise e : M A).
Proof.
  intros w. exists (Raise (Exc e)), [], w.
  split; [reflexivity | apply advances_refl].
Qed.

Lemma tracked_exit_with {A} (msg : string) : tracked (exit_with msg : M A).
Proof.
  intros w. exists (Raise (SystemExit msg)), [], w.
  split; [reflexivity | apply advances_refl].
Qed.

Lemma tracked_finish {A} (o : outcome A) : tracked (finish o).
Proof. intros w. exists o, [], w. split; [reflexivity | apply advances_refl]. Qed.

Lemma tracked_lift {A} (r : result A) : tracked (lift r).
Proof. destruct r; [apply tracked_ret | apply tracked_raise]. Qed.

Lemma tracked_bind {A B} (m : M A) (k : A -> M B) :
  tracked m -> (forall a, tracked (k a)) -> tracked (m ≫= k).
Proof.
  intros Hm Hk w. destruct (Hm w) as ([a|r] & d & w1 & E & A1).
  - destruct (Hk a w1) as (o2 & d2 & w2 & E2 & A2).
    exists o2, (d ++ d2)%list, w2. split.
    + rewrite (bind_ret _ _ _ _ _ E). exact E2.
    + exact (advances_trans _ _ _ _ _ A1 A2).
  - exists (Raise r), d, w1. split; [apply bind_raise; exact E | exact A1].
Qed.

Lemma tracked_try_except {A} (m : M A) (handler : exn -> M A) :
  tracked m -> (forall e, tracked (handler e)) -> tracked (try_except m handler).
Proof.
  intros Hm Hh w.
  destruct (Hm w) as ([a|[e|msg]] & d & w1 & E & A1).
  - exists (Ret a), d, w1. unfold try_except. rewrite E.
    split; [reflexivity | exact A1].
  - destruct (Hh e w1) as (o2 & d2 & w2 & E2 & A2).
    exists o2, (d ++ d2)%list, w2. unfold try_except. rewrite E.
    split; [exact E2 | exact (advances_trans _ _ _ _ _ A1 A2)].
  - exists (Raise (SystemExit msg)), d, w1. unfold try_except. rewrite E.
    split; [reflexivity | exact A1].
Qed.

Lemma tracked_getenv (name : string) : tracked (getenv name).
Proof.
  intros w. exists (Ret (environ w !! name)), [], w.
  split; [reflexivity | apply advances_refl].
Qed.

Lemma tracked_print (line : string) : tracked (print line).
Proof.
  intros w. exists (Ret tt), [], (log_effect (Printed line) w).
  split; [reflexivity | apply advances_print].
Qed.

Lemma tracked_when_debugging (m : M unit) :
  tracked m -> tracked (fun w => if DEBUG w then m w else (Ret tt, w)).
Proof.
  intros Hm w. unfold does. destruct (DEBUG w) eqn:D.
  - destruct (Hm w) as (o & d & w' & E & A). exists o, d, w'.
    cbn beta. rewrite ?D. split; assumption.
  - exists (Ret tt), [], w. cbn beta. rewrite ?D. split; [reflexivity | apply advances_refl].
Qed.

Lemma tracked_dbg (msg : string) : tracked (_dbg msg).
Proof.
  intros w. destruct (dbg_advances msg w) as (w' & E & A).
  exists (Ret tt), [], w'. split; assumption.
Qed.

Lemma tracked_run_ps (code : string) : tracked (run_ps code).
Proof.
  intros w. destruct (run_ps_advances code w) as (w' & E & A).
  eexists _, _, w'. split; eassumption.
Qed.

Lemma tracked_smtp_send (self : EmailSender) (message : Mail) :
  tracked (smtp_send self message).
Proof.
  intros w. unfold does, smtp_send.
  destruct (smtp w) as [|[e|] rest] eqn:E;
    eexists _, [session_of self message], _; (split; [reflexivity|]);
    unfold advances, session_of; simpl; rewrite deeds_app, ?E;
    repeat split; reflexivity.
Qed.

Create HintDb tracked.

#[local] Hint Resolve tracked_ret tracked_mret tracked_raise tracked_exit_with
  tracked_finish tracked_lift tracked_getenv tracked_print tracked_dbg
  tracked_run_ps tracked_smtp_send : tracked.

Ltac tracked_steps :=
  repeat first
    [ solve [auto with tracked]
    | apply tracked_bind; [|intros ?]
    | apply tracked_try_except; [|intros ?]
    | apply tracked_when_debugging ].

Lemma tracked_get_machine_name : tracked get_machine_name.
Proof.
  intros w. exists (Ret (machine_of w)), [], w.
  split; [apply get_machine_name_is_machine_of | apply advances_refl].
Qed.

Lemma tracked_build_sender_from_env : tracked build_sender_from_env.
Proof.
  intros w. exists (Ret (sender_of (environ w))), [], w.
  split; [apply build_sender_from_env_is_sender_of | apply advances_refl].
Qed.

Lemma tracked_get_boot_time_iso : tracked get_boot_time_iso.
Proof. apply tracked_run_ps. Qed.

Lemma tracked_get_local_ipv4_list : tracked get_local_ipv4_list.
Proof.
  unfold get_local_ipv4_list. tracked_steps.
  match goal with
  | |- context [detected_lines ?out] => destruct (detected_lines out)
  end; tracked_steps.
Qed.

Lemma tracked_get_latest_crash_marker : tracked get_latest_crash_marker.
Proof. unfold get_latest_crash_marker. tracked_steps. Qed.

Lemma tracked_get_recent_errors_near (time_iso : option string)
  (hours_before limit : Z) :
  tracked (get_recent_errors_near time_iso hours_before limit).
Proof. unfold get_recent_errors_near. tracked_steps. Qed.

Lemma tracked_make_html (machine : string) (ips : list string)
  (boot_iso : string) (crash : option (list (string * PyVal)))
  (errors : PyVal) :
  tracked (make_html machine ips boot_iso crash errors).
Proof. intros w. unfold make_html. apply tracked_lift. Qed.

Lemma tracked_sendEmail (self : EmailSender) (subject body : string)
  (recipient : option string) (html : bool) :
  tracked (sendEmail self subject body recipient html).
Proof.
  unfold sendEmail.
  destruct recipient, (default_recipient self); tracked_steps.
Qed.

#[local] Hint Resolve tracked_build_sender_from_env tracked_get_boot_time_iso
  tracked_get_machine_name tracked_get_local_ipv4_list
  tracked_get_latest_crash_marker tracked_get_recent_errors_near
  tracked_make_html tracked_sendEmail : tracked.

Lemma tracked_notify_exception (e : exn) : tracked (notify_exception e).
Proof.
  intros w. destruct (notify_exception_advances e w) as (w' & E & A).
  eexists _, _, w'. split; eassumption.
Qed.

#[local] Hint Resolve tracked_notify_exception : tracked.

Lemma tracked_send_boot_mail (sender : EmailSender) (subj html : string) :
  tracked (send_boot_mail sender subj html).
Proof. unfold send_boot_mail. tracked_steps. Qed.

#[local] Hint Resolve tracked_send_boot_mail : tracked.

Lemma tracked_main : tracked main.
Proof.
  unfold main. apply tracked_bind; [|intros [sender|]]; tracked_steps.
Qed.

Lemma tracked_script : tracked script.
Proof.
  unfold script. apply tracked_try_except; [apply tracked_main|].
  intros e. tracked_steps.
Qed.

(** ** What SMTP brings has no bearing *)

Lemma agree_refl (w : World) : agree w w.
Proof. repeat split; reflexivity. Qed.

Lemma blind_ret {A} (a : A) : blind (ret a).
Proof. intros w1 w2 Hag. split; [reflexivity | exact Hag]. Qed.

Lemma blind_mret {A} (a : A) : blind (mret a : M A).
Proof. apply blind_ret. Qed.

Lemma blind_raise {A} (e : exn) : blind (raise e : M A).
Proof. intros w1 w2 Hag. split; [reflexivity | exact Hag]. Qed.

Lemma blind_exit_with {A} (msg : string) : blind (exit_with msg : M A).
Proof. intros w1 w2 Hag. split; [reflexivity | exact Hag]. Qed.

Lemma blind_finish {A} (o : outcome A) : blind (finish o).
Proof. intros w1 w2 Hag. split; [reflexivity | exact Hag]. Qed.

Lemma blind_lift {A} (r : result A) : blind (lift r).
Proof. destruct r; [apply blind_ret | apply blind_raise]. Qed.

Lemma blind_bind {A B} (m : M A) (k : A -> M B) :
  blind m -> (forall a, blind (k a)) -> blind (m ≫= k).
Proof.
  intros Hm Hk w1 w2 Hag. destruct (Hm w1 w2 Hag) as [Ef Ag].
  unfold mbind, M_bind, bind.
  destruct (m w1) as [o1 w1'], (m w2) as [o2 w2']; simpl in *. subst o2.
  destruct o1 as [a|r]; [apply Hk; exact Ag | split; [reflexivity | exact Ag]].
Qed.

Lemma blind_try_except {A} (m : M A) (handler : exn -> M A) :
  blind m -> (forall e, blind (handler e)) -> blind (try_except m handler).
Proof.
  intros Hm Hh w1 w2 Hag. destruct (Hm w1 w2 Hag) as [Ef Ag].
  unfold try_except.
  destruct (m w1) as [o1 w1'], (m w2) as [o2 w2']; simpl in *. subst o2.
  destruct o1 as [a|[e|msg]];
    [split; [reflexivity | exact Ag] | apply Hh; exact Ag
    | split; [reflexivity | exact Ag]].
Qed.

Lemma blind_getenv (name : string) : blind (getenv name).
Proof.
  intros w1 w2 Hag. unfold getenv. simpl. split; [|exact Hag].
  destruct Hag as (Ee & _). rewrite Ee. reflexivity.
Qed.

Lemma blind_print (line : string) : blind (print line).
Proof.
  intros w1 w2 (Ee & Eh & Ec & Ep & Ed). unfold print, agree. simpl.
  rewrite !deeds_app, Ed. repeat split; assumption.
Qed.

Lemma blind_subprocess_run (argv : list string) : blind (subprocess_run argv).
Proof.
  intros w1 w2 (Ee & Eh & Ec & Ep & Ed). unfold subprocess_run. rewrite Ep.
  destruct (procs w2) as [|[e|out err rc] rest] eqn:E; unfold agree; simpl;
    rewrite !deeds_app, Ed, ?Ep, ?E; repeat split; assumption.
Qed.

Lemma DEBUG_agree (w1 w2 : World) : agree w1 w2 -> DEBUG w1 = DEBUG w2.
Proof. intros (Ee & _). unfold DEBUG. rewrite Ee. reflexivity. Qed.

Lemma blind_when_debugging (m : M unit) :
  blind m -> blind (fun w => if DEBUG w then m w else (Ret tt, w)).
Proof.
  intros Hm w1 w2 Hag. cbn beta. rewrite (DEBUG_agree _ _ Hag).
  destruct (DEBUG w2); [apply Hm; exact Hag | split; [reflexivity | exact Hag]].
Qed.

Lemma blind_hostname : blind (fun w => (Ret (hostname w), w)).
Proof.
  intros w1 w2 Hag. simpl. split; [|exact Hag].
  destruct Hag as (_ & Eh & _). rewrite Eh. reflexivity.
Qed.

Create HintDb blind.

#[local] Hint Resolve blind_ret blind_mret blind_raise blind_exit_with
  blind_finish blind_lift blind_getenv blind_print blind_subprocess_run
  blind_hostname : blind.

Ltac blind_steps :=
  repeat first
    [ solve [auto with blind]
    | apply blind_bind; [|intros ?]
    | apply blind_try_except; [|intros ?]
    | apply blind_when_debugging ].

Lemma blind_dbg (msg : string) : blind (_dbg msg).
Proof. unfold _dbg. blind_steps. Qed.

Lemma blind_run_ps (code : string) : blind (run_ps code).
Proof.
  unfold run_ps. blind_steps.
  match goal with p : (string * string * Z)%type |- _ =>
    destruct p as [[out err] rc] end.
  destruct (negb (rc =? 0)); blind_steps.
Qed.

#[local] Hint Resolve blind_dbg blind_run_ps : blind.

Lemma blind_get_boot_time_iso : blind get_boot_time_iso.
Proof. apply blind_run_ps. Qed.

Lemma blind_get_machine_name : blind get_machine_name.
Proof.
  unfold get_machine_name. blind_steps.
  match goal with name : option string |- _ => destruct name as [n|] end;
    [destruct (str_truthy n)|]; blind_steps.
Qed.

Lemma blind_get_local_ipv4_list : blind get_local_ipv4_list.
Proof.
  unfold get_local_ipv4_list. blind_steps.
  match goal with
  | |- context [detected_lines ?out] => destruct (detected_lines out)
  end; blind_steps.
Qed.

Lemma blind_get_latest_crash_marker : blind get_latest_crash_marker.
Proof. unfold get_latest_crash_marker. blind_steps. Qed.

Lemma blind_get_recent_errors_near (time_iso : option string)
  (hours_before limit : Z) :
  blind (get_recent_errors_near time_iso hours_before limit).
Proof. unfold get_recent_errors_near. blind_steps. Qed.

Lemma blind_make_html (machine : string) (ips : list string)
  (boot_iso : string) (crash : option (list (string * PyVal)))
  (errors : PyVal) :
  blind (make_html machine ips boot_iso crash errors).
Proof.
  intros w1 w2 Hag. unfold make_html.
  pose proof Hag as (_ & _ & Ec & _). rewrite Ec.
  apply blind_lift. exact Hag.
Qed.

Lemma blind_build_sender_from_env : blind build_sender_from_env.
Proof.
  intros w1 w2 Hag. rewrite !build_sender_from_env_is_sender_of. simpl.
  split; [|exact Hag]. destruct Hag as (Ee & _). rewrite Ee. reflexivity.
Qed.

(** The session is opened either way; what it brings is only printed. *)
Lemma blind_sendEmail (self : EmailSender) (subject body : string)
  (recipient : option string) (html : bool) :
  blind (sendEmail self subject body recipient html).
Proof.
  assert (Hsend : forall message line,
    blind (try_except (smtp_send self message;; print line)
             (fun e => print ("Failed to send email: " ++ exn_text e)))).
  { intros message line w1 w2 (Ee & Eh & Ec & Ep & Ed).
    unfold smtp_send. unfold_monad.
    destruct (smtp w1) as [|[e1|] r1], (smtp w2) as [|[e2|] r2];
      unfold agree; simpl; rewrite !deeds_app, Ed; simpl;
      repeat split; assumption. }
  unfold sendEmail.
  destruct recipient, (default_recipient self);
    first [apply Hsend | apply blind_raise].
Qed.

#[local] Hint Resolve blind_get_boot_time_iso blind_get_machine_name
  blind_get_local_ipv4_list blind_get_latest_crash_marker
  blind_get_recent_errors_near blind_make_html blind_build_sender_from_env
  blind_sendEmail : blind.

Lemma blind_notify_exception (e : exn) : blind (notify_exception e).
Proof.
  unfold notify_exception. blind_steps.
  match goal with sender : option EmailSender |- _ =>
    destruct sender as [s|] end; [apply blind_sendEmail | blind_steps].
Qed.

#[local] Hint Resolve blind_notify_exception : blind.

Lemma blind_send_boot_mail (sender : EmailSender) (subj html : string) :
  blind (send_boot_mail sender subj html).
Proof. unfold send_boot_mail. blind_steps. Qed.

#[local] Hint Resolve blind_send_boot_mail : blind.

Lemma blind_main : blind main.
Proof.
  unfold main. apply blind_bind; [|intros [sender|]]; blind_steps.
Qed.

Lemma blind_script : blind script.
Proof.
  unfold script. apply blind_try_except; [apply blind_main|].
  intros e. blind_steps.
Qed.

(** ** The steps of [main] *)

Lemma advances_environ (w w' : World) (done : list Effect) :
  advances w w' done -> environ w' = environ w.
Proof. intros (E & _). exact E. Qed.

Lemma advances_procs (w w' : World) (done : list Effect) :
  advances w w' done -> procs w' = drop (spawns done) (procs w).
Proof. intros (_ & _ & _ & _ & P & _). exact P. Qed.

Lemma machine_of_advances (w w' : World) (done : list Effect) :
  advances w w' done -> machine_of w' = machine_of w.
Proof. intros (E & Hh & _). unfold machine_of. rewrite E, Hh. reflexivity. Qed.

Lemma DEBUG_advances (w w' : World) (done : list Effect) :
  advances w w' done -> DEBUG w' = DEBUG w.
Proof. intros (E & _). unfold DEBUG. rewrite E. reflexivity. Qed.

(** [make_html] reads the clock and nothing else. *)
Lemma make_html_advances (machine : string) (ips : list string)
  (boot_iso : string) (crash : option (list (string * PyVal)))
  (errors : PyVal) (w w' : World) (done : list Effect) :
  advances w w' done ->
  make_html machine ips boot_iso crash errors w'
  = (fst (make_html machine ips boot_iso crash errors w), w').
Proof.
  intros (_ & _ & C & _). unfold make_html. rewrite C.
  match goal with |- lift ?r w' = _ => destruct r end; reflexivity.
Qed.

(** Whether a process answers does not depend on the query. *)
Lemma run_result_any_code (code code' : string) (outcomes : list ProcOutcome) :
  match run_result code outcomes, run_result code' outcomes with
  | Ret out, Ret out' => out = out'
  | Raise _, Raise _ => True
  | _, _ => False
  end.
Proof.
  unfold run_result. destruct outcomes as [|[e|out err rc] rest];
    try destruct (rc =? 0); auto.
Qed.

Lemma answer_of_run_result (code : string) (outcomes : list ProcOutcome) :
  answer_of outcomes =
  match run_result code outcomes with
  | Ret out =>
      match events_of_output out with
      | Ok events => Some events
      | Err _ => None
      end
  | Raise _ => None
  end.
Proof.
  unfold answer_of.
  pose proof (run_result_any_code EmptyString code outcomes) as Hc.
  destruct (run_result EmptyString outcomes), (run_result code outcomes);
    try contradiction; [subst; reflexivity | reflexivity].
Qed.

(** Once its query is built, [get_recent_errors_near] returns the first
    answer it gets: to that query, or else to the query without a
    window; and no events when neither is answered. *)
Lemma get_recent_errors_near_does (time_iso : option string)
  (hours_before limit : Z) (code : string) (w : World) :
  build_query time_iso hours_before limit = Ok code ->
  does (get_recent_errors_near time_iso hours_before limit) w
       (Ret (events_on (procs w))) (queries_on code limit (procs w)).
Proof.
  intros Hcode. unfold does, events_on, queries_on.
  rewrite get_recent_errors_near_unfold, Hcode. cbn zeta.
  destruct (run_ps_advances code w) as (w1 & E1 & A1). rewrite E1.
  rewrite (answer_of_run_result code (procs w)).
  assert (Hfb : exists w2,
    match run_ps (recent_query limit) w1 with
    | (Ret out2, w2) =>
        (Ret match events_of_output out2 with
             | Ok events => events
             | Err _ => PList []
             end, w2)
    | (Raise _, w2) => (Ret (PList []), w2)
    end = (Ret (default (PList []) (answer_of (drop 1 (procs w)))), w2)
    /\ advances w w2 [Spawned (ps_argv code);
                      Spawned (ps_argv (recent_query limit))]).
  { destruct (run_ps_advances (recent_query limit) w1) as (w2 & E2 & A2).
    exists w2. split; [|exact (advances_trans _ _ _ _ _ A1 A2)].
    rewrite E2, (answer_of_run_result (recent_query limit)).
    rewrite (advances_procs _ _ _ A1). change (spawns [_]) with 1%nat.
    destruct (run_result (recent_query limit) (drop 1 (procs w)))
      as [out2|r]; [|reflexivity].
    destruct (events_of_output out2); reflexivity. }
  destruct (run_result code (procs w)) as [out|r].
  - destruct (events_of_output out) as [events|e].
    + exists w1. split; [reflexivity | exact A1].
    + exact Hfb.
  - exact Hfb.
Qed.

Lemma sender_pick_default (env : gmap string string) (s : EmailSender) :
  sender_of env = Some s -> is_Some (default_recipient s).
Proof.
  intros Hs. destruct (sender_of_has_recipient _ _ Hs) as (r & Hr & _).
  exists r. exact Hr.
Qed.

Lemma sendEmail_to_default (self : EmailSender) (subject body : string)
  (html : bool) (w : World) :
  is_Some (default_recipient self) ->
  does (sendEmail self subject body None html) w (Ret tt)
       [session_of self
          {| mail_from := login self; mail_to := default_recipient self;
             mail_subject := subject; mail_body := body;
             mail_html := html |}].
Proof.
  intros Hr. apply (sendEmail_advances self subject body None html w).
  right. exact Hr.
Qed.

(** The [try] block around [get_recent_errors_near]. *)
Lemma fetch_block_does (ref_time : option string) (w : World) :
  does
    (try_except
       (found ← get_recent_errors_near ref_time 6 10;
        n ← lift (py_len found);
        _dbg ("Fetched " ++ of_int n ++ " recent error/critical events");;
        ret found)
       (fun e =>
          notify_exception e;;
          _dbg ("Recent-errors fetch failed: " ++ exn_text e);;
          ret (PList [])))
    w
    (Ret match fst (fetched ref_time (procs w)) with
         | Ok events => events
         | Err _ => PList []
         end)
    (snd (fetched ref_time (procs w))
     ++ match fst (fetched ref_time (procs w)), sender_of (environ w) with
        | Err e, Some s => [session_of s (report_mail s e)]
        | _, _ => []
        end)%list.
Proof.
  assert (Hhandler : forall e w1 done,
    advances w w1 done ->
    exists w',
      (notify_exception e;;
       _dbg ("Recent-errors fetch failed: " ++ exn_text e);;
       ret (PList [])) w1 = (Ret (PList []), w')
      /\ advances w w'
           (done ++ match sender_of (environ w) with
                    | Some s => [session_of s (report_mail s e)]
                    | None => []
                    end)%list).
  { intros e w1 done A1.
    destruct (notify_exception_advances e w1) as (w2 & E2 & A2).
    rewrite (advances_environ _ _ _ A1) in A2.
    destruct (dbg_advances ("Recent-errors fetch failed: " ++ exn_text e) w2)
      as (w3 & E3 & A3).
    exists w3. split.
    - rewrite (bind_ret _ _ _ _ _ E2), (bind_ret _ _ _ _ _ E3). reflexivity.
    - pose proof (advances_trans _ _ _ _ _ (advances_trans _ _ _ _ _ A1 A2) A3)
        as A. rewrite app_nil_r in A. exact A. }
  unfold does, fetched, try_except.
  destruct (build_query ref_time 6 10) as [code|e] eqn:Hcode.
  - destruct (get_recent_errors_near_does ref_time 6 10 code w Hcode)
      as (w1 & E1 & A1).
    rewrite (bind_ret _ _ _ _ _ E1). cbn [fst snd].
    destruct (py_len (events_on (procs w))) as [n|e] eqn:Hlen.
    + cbn [lift].
      rewrite (bind_ret _ _ _ _ _ (eq_refl : ret n w1 = (Ret n, w1))).
      destruct (dbg_advances
                  ("Fetched " ++ of_int n ++ " recent error/critical events")
                  w1) as (w2 & E2 & A2).
      rewrite (bind_ret _ _ _ _ _ E2). exists w2. split; [reflexivity|].
      pose proof (advances_trans _ _ _ _ _ A1 A2) as A.
      rewrite !app_nil_r in *. exact A.
    + cbn [lift].
      rewrite (bind_raise _ _ _ _ _ (eq_refl : raise e w1 = (Raise (Exc e), w1))).
      destruct (Hhandler e w1 _ A1) as (w' & E & A).
      exists w'. split; [exact E|].
      destruct (sender_of (environ w)); exact A.
  - assert (Eg : get_recent_errors_near ref_time 6 10 w = (Raise (Exc e), w))
      by (unfold get_recent_errors_near; rewrite Hcode; reflexivity).
    rewrite (bind_raise _ _ _ _ _ Eg). cbn [fst snd].
    destruct (Hhandler e w _ (advances_refl w)) as (w' & E & A).
    exists w'. split; [exact E|].
    destruct (sender_of (environ w)); exact A.
Qed.

(** The probe, when [DEBUG] is on. *)
Lemma probe_block_does (s : EmailSender) (machine : string)
  (ips : list string) (w : World) :
  is_Some (default_recipient s) ->
  does
    (fun w =>
       if DEBUG w
       then try_except
              (sendEmail s ("[BOOT-TEST] " ++ machine)
                         ("Probe. IPs=" ++ repr_ips ips) None false;;
               _dbg "Probe email sent")
              (fun e =>
                 _dbg ("Probe email failed: " ++ exn_text e);;
                 notify_exception e) w
       else (Ret tt, w))
    w (Ret tt)
    (if DEBUG w then [session_of s (probe_mail s machine ips)] else []).
Proof.
  intros Hr. unfold does. cbn beta. destruct (DEBUG w).
  - destruct (sendEmail_to_default s ("[BOOT-TEST] " ++ machine)
                ("Probe. IPs=" ++ repr_ips ips) false w Hr) as (w1 & E1 & A1).
    destruct (dbg_advances "Probe email sent" w1) as (w2 & E2 & A2).
    exists w2. split.
    + unfold try_except.
      rewrite (bind_ret _ _ _ _ _ E1), E2. reflexivity.
    + pose proof (advances_trans _ _ _ _ _ A1 A2) as A.
      rewrite app_nil_r in A. exact A.
  - exists w. split; [reflexivity | apply advances_refl].
Qed.

Lemma send_boot_mail_does (s : EmailSender) (subj html : string) (w : World) :
  is_Some (default_recipient s) ->
  does (send_boot_mail s subj html) w (Ret tt)
       [session_of s (boot_mail s subj html)].
Proof.
  intros Hr.
  destruct (sendEmail_to_default s subj html true w Hr) as (w1 & E1 & A1).
  destruct (dbg_advances "Boot email sent" w1) as (w2 & E2 & A2).
  exists w2. split.
  - unfold send_boot_mail, try_except.
    rewrite (bind_ret _ _ _ _ _ E1), E2. reflexivity.
  - pose proof (advances_trans _ _ _ _ _ A1 A2) as A.
    rewrite app_nil_r in A. exact A.
Qed.

(** ** [main], step by step *)

Ltac step_dbg Acc :=
  match goal with
  | |- context [@mbind M _ _ _ ?k (_dbg ?msg) ?w] =>
      let w' := fresh "w" in
      let E := fresh "E" in
      let A := fresh "A" in
      destruct (dbg_advances msg w) as (w' & E & A);
      rewrite (bind_ret (_dbg msg) k w w' tt E); clear E;
      apply (advances_trans _ _ _ _ _ Acc) in A;
      rewrite ?app_nil_r in A; clear Acc; rename A into Acc
  end.

(** What [main] does with a client at hand.  The boot time and the
    crash marker are needed; the events are not; the mails go out
    last. *)
Lemma main_does (w : World) (s : EmailSender) :
  sender_of (environ w) = Some s ->
  let machine := machine_of w in
  let ips := addresses (environ w) (procs w) in
  let gathered := [Spawned (ps_argv ipv4_query);
                   Spawned (ps_argv boot_time_query)] in
  match run_result boot_time_query (drop 1 (procs w)) with
  | Raise r => does main w (Raise r) gathered
  | Ret boot_iso =>
      match reference_on (drop 2 (procs w)) with
      | Raise r =>
          does main w (Raise r) (gathered ++ [Spawned (ps_argv crash_query)])
      | Ret (crash, ref_time) =>
          let found := fetched ref_time (drop 3 (procs w)) in
          let errors :=
            match fst found with Ok events => events | Err _ => PList [] end in
          let so_far :=
            (gathered ++ [Spawned (ps_argv crash_query)] ++ snd found
             ++ match fst found with
                | Ok _ => []
                | Err e => [session_of s (report_mail s e)]
                end)%list in
          match fst (make_html machine ips boot_iso crash errors w) with
          | Raise r => does main w (Raise r) so_far
          | Ret html =>
              does main w (Ret tt)
                (so_far
                 ++ (if DEBUG w then [session_of s (probe_mail s machine ips)]
                     else [])
                 ++ [session_of s (boot_mail s (boot_subject machine ips) html)])
          end
      end
  end.
Proof.
  intros Hs machine ips gathered.
  pose proof (sender_pick_default _ _ Hs) as Hr.
  pose proof (advances_refl w) as Acc.
  unfold does, main.
  rewrite (bind_ret _ _ _ _ _ (build_sender_from_env_is_sender_of w)), Hs.
  step_dbg Acc.
  rewrite (bind_ret _ _ _ _ _ (get_machine_name_is_machine_of w0)).
  rewrite (machine_of_advances _ _ _ Acc). fold machine.
  step_dbg Acc.
  destruct (get_local_ipv4_list_advances w1) as (w2 & E & A).
  rewrite (advances_environ _ _ _ Acc), (advances_procs _ _ _ Acc) in E.
  change (drop (spawns []) (procs w)) with (procs w) in E. fold ips in E.
  rewrite (bind_ret _ _ _ _ _ E). clear E.
  apply (advances_trans _ _ _ _ _ Acc) in A. clear Acc. rename A into Acc.
  step_dbg Acc.
  destruct (run_ps_advances boot_time_query w3) as (w4 & E & A).
  rewrite (advances_procs _ _ _ Acc) in E.
  change (spawns ([] ++ [Spawned (ps_argv ipv4_query)])) with 1%nat in E.
  apply (advances_trans _ _ _ _ _ Acc) in A. clear Acc. rename A into Acc.
  unfold get_boot_time_iso.
  destruct (run_result boot_time_query (drop 1 (procs w))) as [boot_iso|r].
  2:{ rewrite (bind_raise _ _ _ _ _ E). exists w4. split; [reflexivity|exact Acc]. }
  rewrite (bind_ret _ _ _ _ _ E). clear E.
  step_dbg Acc.
  destruct (get_latest_crash_marker_advances w5) as (w6 & E & A).
  rewrite (advances_procs _ _ _ Acc) in E.
  change (spawns (([] ++ [Spawned (ps_argv ipv4_query)])
                  ++ [Spawned (ps_argv boot_time_query)])) with 2%nat in E.
  apply (advances_trans _ _ _ _ _ Acc) in A. clear Acc. rename A into Acc.
  unfold reference_on.
  destruct (marker_on (drop 2 (procs w))) as [crash|r].
  2:{ rewrite (bind_raise _ _ _ _ _ E). exists w6. split; [reflexivity|exact Acc]. }
  rewrite (bind_ret _ _ _ _ _ E). clear E.
  destruct (marker_time crash) as [ref_time|e].
  2:{ rewrite (bind_raise _ _ _ _ _
                 (eq_refl : lift (Err e) w6 = (Raise (Exc e), w6))).
      exists w6. split; [reflexivity|exact Acc]. }
  rewrite (bind_ret _ _ _ _ _
             (eq_refl : lift (Ok ref_time) w6 = (Ret ref_time, w6))).
  step_dbg Acc.
  destruct (fetch_block_does ref_time w7) as (w8 & E & A).
  rewrite (advances_procs _ _ _ Acc) in E.
  rewrite (advances_environ _ _ _ Acc), (advances_procs _ _ _ Acc), Hs in A.
  change (spawns ((([] ++ [Spawned (ps_argv ipv4_query)])
                   ++ [Spawned (ps_argv boot_time_query)])
                  ++ [Spawned (ps_argv crash_query)])) with 3%nat in E, A.
  rewrite (bind_ret _ _ _ _ _ E). clear E.
  apply (advances_trans _ _ _ _ _ Acc) in A. clear Acc. rename A into Acc.
  cbn zeta.
  set (found := fetched ref_time (drop 3 (procs w))) in *.
  set (errors := match fst found with Ok events => events | Err _ => PList [] end).
  pose proof (make_html_advances machine ips boot_iso crash errors w w8 _ Acc)
    as E.
  destruct (fst (make_html machine ips boot_iso crash errors w)) as [html|r].
  2:{ rewrite (bind_raise _ _ _ _ _ E). exists w8. split; [reflexivity|].
      destruct (fst found); repeat rewrite <- app_assoc in Acc; exact Acc. }
  rewrite (bind_ret _ _ _ _ _ E). clear E.
  step_dbg Acc.
  destruct (probe_block_does s machine ips w9 Hr) as (w10 & E & A).
  rewrite (DEBUG_advances _ _ _ Acc) in A.
  rewrite (bind_ret _ _ _ _ _ E). clear E.
  apply (advances_trans _ _ _ _ _ Acc) in A. clear Acc. rename A into Acc.
  destruct (send_boot_mail_does s (boot_subject machine ips) html w10 Hr)
    as (w11 & E & A).
  apply (advances_trans _ _ _ _ _ Acc) in A. clear Acc. rename A into Acc.
  exists w11. split; [exact E|].
  destruct (fst found); repeat rewrite <- app_assoc in Acc;
    repeat rewrite <- app_assoc; exact Acc.
Qed.

(** ** The script as a whole *)

Lemma built_is_sender_of (w : World) (built : option EmailSender) :
  fst (build_sender_from_env w) = Ret built -> sender_of (environ w) = built.
Proof.
  rewrite build_sender_from_env_is_sender_of. simpl. congruence.
Qed.

Lemma main_without_client (w : World) :
  sender_of (environ w) = None ->
  main w
  = (Raise (SystemExit "EMAIL_ADDRESS/EMAIL_PASSWORD not set in environment."),
     w).
Proof.
  intros Hs. unfold main.
  rewrite (bind_ret _ _ _ _ _ (build_sender_from_env_is_sender_of w)), Hs.
  reflexivity.
Qed.

(** The boundary of the process: an [Exception] out of [main] is
    reported and raised again; anything else passes. *)
Lemma script_after_main (w : World) (s : EmailSender) (o : outcome unit)
  (done : list Effect) :
  sender_of (environ w) = Some s ->
  does main w o done ->
  match o with
  | Raise (Exc e) =>
      does script w (Raise (Exc e))
           (done ++ [session_of s (report_mail s e)])
  | _ => does script w o done
  end.
Proof.
  intros Hs (w1 & E & A). unfold does, script, try_except. rewrite E.
  destruct o as [[]|[e|msg]].
  - exists w1. split; [reflexivity | exact A].
  - destruct (notify_exception_advances e w1) as (w2 & E2 & A2).
    rewrite (advances_environ _ _ _ A), Hs in A2.
    exists w2. split.
    + rewrite (bind_ret _ _ _ _ _ E2). reflexivity.
    + exact (advances_trans _ _ _ _ _ A A2).
  - exists w1. split; [reflexivity | exact A].
Qed.

(** X3: without credentials the script ends with [SystemExit] and has
    done nothing: no process, no session, no line printed, and no
    failure report, [SystemExit] not being an [Exception]. *)
Theorem no_credentials_exit_unreported (w : World) :
  fst (build_sender_from_env w) = Ret None ->
  script w
  = (Raise (SystemExit "EMAIL_ADDRESS/EMAIL_PASSWORD not set in environment."),
     w).
Proof.
  intros Hs. apply built_is_sender_of in Hs.
  unfold script, try_except. rewrite (main_without_client w Hs). reflexivity.
Qed.

(** X4: the boundary of the process.  When [main] raises an
    [Exception], credentials are at hand, the script opens one more SMTP
    session, for the report on that exception, and raises the same
    exception; when [main] returns or exits, the script does what [main]
    did and nothing more. *)
Theorem script_reports_once_and_raises_again (w : World) :
  match main w with
  | (Raise (Exc e), w1) =>
      exists s w2,
        fst (build_sender_from_env w) = Ret (Some s)
        /\ script w = (Raise (Exc e), w2)
        /\ advances w1 w2 [session_of s (report_mail s e)]
  | other => script w = other
  end.
Proof.
  destruct (main w) as [[[]|[e|msg]] w1] eqn:E.
  - unfold script, try_except. rewrite E. reflexivity.
  - destruct (sender_of (environ w)) as [s|] eqn:Hs.
    2:{ rewrite (main_without_client w Hs) in E. discriminate. }
    destruct (tracked_main w) as (o & done & w1' & E' & A).
    rewrite E in E'. injection E' as <- <-.
    destruct (notify_exception_advances e w1) as (w2 & E2 & A2).
    rewrite (advances_environ _ _ _ A), Hs in A2.
    exists s, w2. split; [|split].
    + rewrite build_sender_from_env_is_sender_of. simpl. rewrite Hs. reflexivity.
    + unfold script, try_except. rewrite E.
      rewrite (bind_ret _ _ _ _ _ E2). reflexivity.
    + exact A2.
  - unfold script, try_except. rewrite E. reflexivity.
Qed.

(** X5: the boot time is needed.  When the query for it fails (the
    process cannot be started, or ends with a code other than 0), the
    script raises that failure after two processes and one SMTP session,
    the report; no boot mail is sent. *)
Theorem boot_time_failure_is_fatal (w : World) (s : EmailSender) (e : exn) :
  fst (build_sender_from_env w) = Ret (Some s) ->
  run_result boot_time_query (drop 1 (procs w)) = Raise (Exc e) ->
  does script w (Raise (Exc e))
       [Spawned (ps_argv ipv4_query); Spawned (ps_argv boot_time_query);
        session_of s (report_mail s e)].
Proof.
  intros Hs Hboot. apply built_is_sender_of in Hs.
  pose proof (main_does w s Hs) as Hmain. cbn zeta in Hmain.
  rewrite Hboot in Hmain.
  exact (script_after_main w s _ _ Hs Hmain).
Qed.

(** X6: so is the crash marker.  When the query for it fails, when
    [json.loads] raises anything but [JSONDecodeError] on its output, or
    when the marker's [TimeCreated] is not text, the script raises that
    exception after three processes and the report; no boot mail is
    sent. *)
Theorem crash_marker_failure_is_fatal (w : World) (s : EmailSender)
  (boot_iso : string) (e : exn) :
  fst (build_sender_from_env w) = Ret (Some s) ->
  run_result boot_time_query (drop 1 (procs w)) = Ret boot_iso ->
  reference_on (drop 2 (procs w)) = Raise (Exc e) ->
  does script w (Raise (Exc e))
       [Spawned (ps_argv ipv4_query); Spawned (ps_argv boot_time_query);
        Spawned (ps_argv crash_query); session_of s (report_mail s e)].
Proof.
  intros Hs Hboot Href. apply built_is_sender_of in Hs.
  pose proof (main_does w s Hs) as Hmain. cbn zeta in Hmain.
  rewrite Hboot, Href in Hmain.
  exact (script_after_main w s _ _ Hs Hmain).
Qed.

(** X7: a list of events that cannot be rendered stops the boot mail.
    [make_html] is called outside every [try] of [main]: when it raises
    on the events that were fetched, the script raises that exception
    after the queries and the report. *)
Theorem rendering_failure_is_fatal (w : World) (s : EmailSender)
  (boot_iso : string) (crash : option (list (string * PyVal)))
  (ref_time : option string) (errors : PyVal) (queries : list Effect)
  (e : exn) :
  fst (build_sender_from_env w) = Ret (Some s) ->
  run_result boot_time_query (drop 1 (procs w)) = Ret boot_iso ->
  reference_on (drop 2 (procs w)) = Ret (crash, ref_time) ->
  fetched ref_time (drop 3 (procs w)) = (Ok errors, queries) ->
  fst (make_html (machine_of w) (addresses (environ w) (procs w)) boot_iso
                 crash errors w) = Raise (Exc e) ->
  does script w (Raise (Exc e))
       ([Spawned (ps_argv ipv4_query); Spawned (ps_argv boot_time_query);
         Spawned (ps_argv crash_query)]
        ++ queries ++ [session_of s (report_mail s e)]).
Proof.
  intros Hs Hboot Href Hfetch Hhtml. apply built_is_sender_of in Hs.
  pose proof (main_does w s Hs) as Hmain. cbn zeta in Hmain.
  rewrite Hboot, Href, Hfetch in Hmain. cbn [fst snd] in Hmain.
  rewrite Hhtml in Hmain.
  pose proof (script_after_main w s _ _ Hs Hmain) as Hscript.
  cbn beta iota in Hscript. rewrite app_nil_r in Hscript.
  repeat rewrite <- app_assoc in Hscript. exact Hscript.
Qed.

(** X8: a run in which the boot time, the crash marker and the events
    are obtained and rendered.  The script starts the queries for the
    addresses, the boot time and the crash marker, then those for the
    events; it opens a session for the probe when [DEBUG] is on, then
    one for the boot mail, whose subject names the machine and the
    addresses and whose body is the rendered report; and it returns,
    whatever the sessions bring. *)
Theorem healthy_run_sends_boot_mail (w : World) (s : EmailSender)
  (boot_iso : string) (crash : option (list (string * PyVal)))
  (ref_time : option string) (errors : PyVal) (queries : list Effect)
  (html : string) :
  fst (build_sender_from_env w) = Ret (Some s) ->
  run_result boot_time_query (drop 1 (procs w)) = Ret boot_iso ->
  reference_on (drop 2 (procs w)) = Ret (crash, ref_time) ->
  fetched ref_time (drop 3 (procs w)) = (Ok errors, queries) ->
  fst (make_html (machine_of w) (addresses (environ w) (procs w)) boot_iso
                 crash errors w) = Ret html ->
  does script w (Ret tt)
       ([Spawned (ps_argv ipv4_query); Spawned (ps_argv boot_time_query);
         Spawned (ps_argv crash_query)]
        ++ queries
        ++ (if DEBUG w
            then [session_of s
                    (probe_mail s (machine_of w)
                                (addresses (environ w) (procs w)))]
            else [])
        ++ [session_of s
              (boot_mail s
                 (boot_subject (machine_of w)
                               (addresses (environ w) (procs w)))
                 html)]).
Proof.
  intros Hs Hboot Href Hfetch Hhtml. apply built_is_sender_of in Hs.
  pose proof (main_does w s Hs) as Hmain. cbn zeta in Hmain.
  rewrite Hboot, Href, Hfetch in Hmain. cbn [fst snd] in Hmain.
  rewrite Hhtml in Hmain.
  pose proof (script_after_main w s _ _ Hs Hmain) as Hscript.
  cbn beta iota in Hscript. rewrite app_nil_r in Hscript.
  repeat rewrite <- app_assoc in Hscript. exact Hscript.
Qed.

(** X9: the events are not needed.  When fetching them raises (the
    query cannot be built, or what came back has no length), the
    exception is reported, and the boot mail goes out with no events:
    the script returns. *)
Theorem fetch_failure_is_reported_and_absorbed (w : World) (s : EmailSender)
  (boot_iso : string) (crash : option (list (string * PyVal)))
  (ref_time : option string) (queries : list Effect) (e : exn)
  (html : string) :
  fst (build_sender_from_env w) = Ret (Some s) ->
  run_result boot_time_query (drop 1 (procs w)) = Ret boot_iso ->
  reference_on (drop 2 (procs w)) = Ret (crash, ref_time) ->
  fetched ref_time (drop 3 (procs w)) = (Err e, queries) ->
  fst (make_html (machine_of w) (addresses (environ w) (procs w)) boot_iso
                 crash (PList []) w) = Ret html ->
  does script w (Ret tt)
       ([Spawned (ps_argv ipv4_query); Spawned (ps_argv boot_time_query);
         Spawned (ps_argv crash_query)]
        ++ queries
        ++ [session_of s (report_mail s e)]
        ++ (if DEBUG w
            then [session_of s
                    (probe_mail s (machine_of w)
                                (addresses (environ w) (procs w)))]
            else [])
        ++ [session_of s
              (boot_mail s
                 (boot_subject (machine_of w)
                               (addresses (environ w) (procs w)))
                 html)]).
Proof.
  intros Hs Hboot Href Hfetch Hhtml. apply built_is_sender_of in Hs.
  pose proof (main_does w s Hs) as Hmain. cbn zeta in Hmain.
  rewrite Hboot, Href, Hfetch in Hmain. cbn [fst snd] in Hmain.
  rewrite Hhtml in Hmain.
  pose proof (script_after_main w s _ _ Hs Hmain) as Hscript.
  cbn beta iota in Hscript.
  repeat rewrite <- app_assoc in Hscript. exact Hscript.
Qed.

(** X10: what the SMTP sessions bring has no bearing on the run.  With
    other outcomes for its sessions the script ends the same way
    (returns, raises the same exception, or exits), starts the same
    processes and opens the same sessions for the same mails; only what
    it prints differs. *)
Theorem smtp_outcomes_have_no_bearing (w : World)
  (outcomes : list (option exn)) :
  fst (script (with_smtp outcomes w)) = fst (script w)
  /\ deeds (journal (snd (script (with_smtp outcomes w))))
     = deeds (journal (snd (script w)))
  /\ procs (snd (script (with_smtp outcomes w))) = procs (snd (script w)).
Proof.
  assert (Hag : agree (with_smtp outcomes w) w) by (repeat split; reflexivity).
  destruct (blind_script _ _ Hag) as (Hfst & _ & _ & _ & Hp & Hd).
  repeat split; assumption.
Qed.

(** ** The mail client *)

(** X11: who the mail goes to.  With no recipient and no default,
    [sendEmail] raises [ValueError] before anything is done; a
    non-empty recipient is the addressee whatever the default is; an
    empty recipient stands for the default, and with no default the
    session is opened all the same, for a mail with no addressee. *)
Theorem sendEmail_recipient_rules (self : EmailSender)
  (subject body : string) (html : bool) (w : World) :
  (default_recipient self = None ->
   sendEmail self subject body None html w
   = (Raise (Exc (Exn "ValueError" "Recipient email must be specified.")), w))
  /\ (forall r, str_truthy r = true ->
      does (sendEmail self subject body (Some r) html) w (Ret tt)
           [session_of self
              {| mail_from := login self; mail_to := Some r;
                 mail_subject := subject; mail_body := body;
                 mail_html := html |}])
  /\ does (sendEmail self subject body (Some EmptyString) html) w (Ret tt)
          [session_of self
             {| mail_from := login self; mail_to := default_recipient self;
                mail_subject := subject; mail_body := body;
                mail_html := html |}].
Proof.
  split; [|split].
  - intros Hd. unfold sendEmail. rewrite Hd. reflexivity.
  - intros r Hr.
    destruct (sendEmail_advances self subject body (Some r) html w)
      as (w' & E & A); [left; eauto|].
    unfold pick_recipient in A. rewrite Hr in A. exists w'. split; assumption.
  - destruct (sendEmail_advances self subject body (Some EmptyString) html w)
      as (w' & E & A); [left; eauto|].
    exists w'. split; assumption.
Qed.

(** X12: [notify_exception] is best effort.  It returns whatever
    happens; it starts no process; with credentials in the environment
    it opens one session, for the report on the exception, sent from the
    login address to the default recipient, and without them it does
    nothing at all. *)
Theorem notify_exception_is_best_effort (e : exn) (w : World) :
  does (notify_exception e) w (Ret tt)
       match fst (build_sender_from_env w) with
       | Ret (Some s) => [session_of s (report_mail s e)]
       | _ => []
       end.
Proof.
  destruct (notify_exception_advances e w) as (w' & E & A).
  rewrite build_sender_from_env_is_sender_of. cbn [fst].
  exists w'. split; assumption.
Qed.

(** ** Gathering *)

Lemma addresses_not_empty (env : gmap string string)
  (outcomes : list ProcOutcome) :
  Forall (fun ip => str_truthy ip = true) (addresses env outcomes).
Proof.
  assert (Hfb : Forall (fun ip => str_truthy ip = true)
                       (env_fallback (env !! "MACHINE_IP"))).
  { unfold env_fallback. destruct (env !! "MACHINE_IP") as [ip|]; [|constructor].
    destruct (str_truthy ip) eqn:E; repeat constructor. exact E. }
  unfold addresses. destruct (run_result ipv4_query outcomes) as [out|r];
    [|exact Hfb].
  destruct (detected_lines out) as [|a l] eqn:E; [exact Hfb|].
  rewrite <- E. unfold detected_lines. apply List.Forall_forall.
  intros x Hx. apply filter_In in Hx. apply Hx.
Qed.

(** X13: [get_local_ipv4_list] always returns: it starts one process,
    the detection query, opens no session, and no address in its list
    is the empty text. *)
Theorem local_ipv4_list_always_returns (w : World) :
  exists ips,
    does get_local_ipv4_list w (Ret ips) [Spawned (ps_argv ipv4_query)]
    /\ Forall (fun ip => str_truthy ip = true) ips.
Proof.
  exists (addresses (environ w) (procs w)).
  split; [apply get_local_ipv4_list_advances | apply addresses_not_empty].
Qed.

(** X14: which events [get_recent_errors_near] returns.  Once its
    query is built, the call returns the events of the first answer it
    gets: when the process for its query ends with code 0 and the
    output is accepted, those events, and nothing else is started;
    otherwise the query without a window is run, once, and its events
    are returned, or no events when it is not answered either. *)
Theorem recent_errors_are_the_first_answer (time_iso : option string)
  (hours_before limit : Z) (code : string) (w : World) :
  build_query time_iso hours_before limit = Ok code ->
  match answer_of (procs w) with
  | Some events =>
      does (get_recent_errors_near time_iso hours_before limit) w
           (Ret events) [Spawned (ps_argv code)]
  | None =>
      does (get_recent_errors_near time_iso hours_before limit) w
           (Ret match answer_of (drop 1 (procs w)) with
                | Some events => events
                | None => PList []
                end)
           [Spawned (ps_argv code); Spawned (ps_argv (recent_query limit))]
  end.
Proof.
  intros Hcode.
  pose proof (get_recent_errors_near_does time_iso hours_before limit code w
                Hcode) as Hdoes.
  unfold events_on, queries_on in Hdoes.
  destruct (answer_of (procs w)); [exact Hdoes|].
  destruct (answer_of (drop 1 (procs w))); exact Hdoes.
Qed.

Lemma events_of_output_shape (out : string) (v : PyVal) :
  events_of_output out = Ok v ->
  match v with
  | PDict _ => False
  | PList _ => True
  | _ => truthy v = true
  end.
Proof.
  unfold events_of_output. destruct (negb (str_truthy out)).
  - intros [= <-]. exact I.
  - destruct (json_loads out) as [data|e]; [|discriminate]. simpl.
    destruct data; try (intros [= <-]; exact I);
      (destruct (truthy _) eqn:T; intros [= <-]; first [exact T | exact I]).
Qed.

Lemma answer_of_shape (outcomes : list ProcOutcome) (v : PyVal) :
  answer_of outcomes = Some v ->
  match v with
  | PDict _ => False
  | PList _ => True
  | _ => truthy v = true
  end.
Proof.
  unfold answer_of. destruct (run_result EmptyString outcomes) as [out|r];
    [|discriminate].
  destruct (events_of_output out) as [events|e] eqn:E; [|discriminate].
  intros [= <-]. exact (events_of_output_shape _ _ E).
Qed.

(** X15: what [get_recent_errors_near] can return.  Never a dict: a
    lone record comes back as a list of one.  A list, unless the output
    of PowerShell read as a JSON scalar that is truthy (a number other
    than 0, a non-empty text, [true]), which comes back as it is. *)
Theorem recent_errors_shape (time_iso : option string)
  (hours_before limit : Z) (w : World) (v : PyVal) :
  fst (get_recent_errors_near time_iso hours_before limit w) = Ret v ->
  match v with
  | PDict _ => False
  | PList _ => True
  | _ => truthy v = true
  end.
Proof.
  destruct (build_query time_iso hours_before limit) as [code|e] eqn:Hcode.
  - destruct (get_recent_errors_near_does time_iso hours_before limit code w
                Hcode) as (w' & E & _).
    rewrite E. cbn [fst]. intros [= <-]. unfold events_on.
    destruct (answer_of (procs w)) as [events|] eqn:E1;
      [exact (answer_of_shape _ _ E1)|].
    destruct (answer_of (drop 1 (procs w))) as [events|] eqn:E2;
      [exact (answer_of_shape _ _ E2) | exact I].
  - unfold get_recent_errors_near. rewrite Hcode. discriminate.
Qed.

(** X21: the reference time goes through [str.format] with the rest
    of the prelude.  A field [{hrs}] in it is filled in like the one of
    the template: the query that is run parses another text than the
    reference time it was given. *)
Theorem hours_field_in_reference_time_is_filled (before after : string)
  (hours_before limit : Z) :
  has_brace before = false ->
  has_brace after = false ->
  window_query (before ++ "{hrs}" ++ after) hours_before limit
  = Ok (window_query_text (before ++ of_int hours_before ++ after)
                          hours_before limit).
Proof.
  intros Hbefore Hafter.
  unfold window_query, str_format, window_prelude_template.
  rewrite format_from_text by reflexivity.
  rewrite !append_assoc.
  rewrite format_from_text by exact Hbefore.
  change ("{hrs}" ++ after ++ "', [CultureInfo], [Styles]); $start = $t.AddHours(-{hrs}); ")
    with (String "{" (String "h" (String "r" (String "s" (String "}"
            (after ++ "', [CultureInfo], [Styles]); $start = $t.AddHours(-{hrs}); ")))))).
  cbn [format_from Ascii.eqb Bool.eqb].
  rewrite format_from_text by exact Hafter.
  change (format_from InText
            "', [CultureInfo], [Styles]); $start = $t.AddHours(-{hrs}); "
            hours_before)
    with (Ok ("', [CultureInfo], [Styles]); $start = $t.AddHours(-"
              ++ of_int hours_before ++ "); ") : result string).
  unfold window_query_text. simpl rbind. rewrite !append_assoc. reflexivity.
Qed.

(** ** The report, row by row *)

Lemma append_empty (s : string) : s ++ EmptyString = s.
Proof.
  induction s as [|a s IH]; [reflexivity|].
  change (String a (s ++ EmptyString) = String a s). f_equal. exact IH.
Qed.

Lemma event_rows_app (acc : string) (events : list PyVal) (rows : list string) :
  Forall2 (fun ev row => event_row ev = Ok row) events rows ->
  event_rows acc events = Ok (acc ++ join EmptyString rows).
Proof.
  intros Hrows. revert acc.
  induction Hrows as [|ev row events rows Hrow _ IH]; intros acc.
  - simpl. f_equal. symmetry. apply append_empty.
  - simpl. unfold_monad. rewrite Hrow, IH, append_assoc. f_equal. f_equal.
    unfold join. destruct rows as [|row' rows']; [|reflexivity].
    apply append_empty.
Qed.

Lemma event_rows_stop (acc : string) (good : list PyVal) (rows : list string)
  (bad : PyVal) (rest : list PyVal) (e : exn) :
  Forall2 (fun ev row => event_row ev = Ok row) good rows ->
  event_row bad = Err e ->
  event_rows acc (good ++ bad :: rest) = Err e.
Proof.
  intros Hrows Hbad. revert acc.
  induction Hrows as [|ev row events rows' Hrow _ IH]; intros acc; simpl;
    unfold_monad.
  - rewrite Hbad. reflexivity.
  - rewrite Hrow. apply IH.
Qed.

Lemma event_row_not_empty (ev : PyVal) (row : string) :
  event_row ev = Ok row -> str_truthy row = true.
Proof.
  unfold event_row. destruct ev; try discriminate. unfold_monad.
  destruct (clean_message fields); [|discriminate].
  destruct (fmt_dt_local _); [|discriminate].
  intros [= <-]. reflexivity.
Qed.

Lemma fmt_dt_local_returns (v : PyVal) : exists r, fmt_dt_local v = Ok r.
Proof.
  unfold fmt_dt_local, rcatch. destruct (fmt_dt_local_try v); eauto.
Qed.

(** X16: one row for each event, in order.  When every event that the
    loop of [make_html] walks through renders as a row, and there is at
    least one, the document ends in the events table whose body is
    those rows one after the other: the placeholder row does not
    appear.  [make_html] leaves the world as it is. *)
Theorem events_table_has_one_row_per_event (machine : string)
  (ips : list string) (boot_iso : string)
  (crash : option (list (string * PyVal))) (errors : PyVal)
  (first : PyVal) (others : list PyVal) (rows : list string) (w : World) :
  py_iter errors = Ok (first :: others) ->
  Forall2 (fun ev row => event_row ev = Ok row) (first :: others) rows ->
  match make_html machine ips boot_iso crash errors w with
  | (Ret html, w') =>
      w' = w /\
      exists head,
        html = head ++ table_head ++ join EmptyString rows ++ table_foot
  | (Raise (Exc e), _) => crash_block crash = Err e
  | (Raise (SystemExit _), _) => False
  end.
Proof.
  intros Hiter Hrows. unfold make_html. unfold_monad.
  destruct (fmt_dt_local_returns (PStr boot_iso)) as (boot_local & ->).
  destruct (crash_block crash) as [block|e]; [|reflexivity].
  rewrite Hiter, (event_rows_app EmptyString (first :: others) rows Hrows).
  change (EmptyString ++ join EmptyString rows) with (join EmptyString rows).
  split; [reflexivity|]. eexists. unfold events_table, table_body.
  assert (Hrow : str_truthy (join EmptyString rows) = true).
  { inversion Hrows as [|ev row events rows' Hrow Hrest]; subst.
    apply event_row_not_empty in Hrow. unfold join.
    destruct row as [|a row]; [discriminate|].
    destruct rows'; reflexivity. }
  rewrite Hrow. reflexivity.
Qed.

(** X17: an event that is no dict stops the rendering.  When the
    events before it render and the crash block does, [make_html]
    raises [AttributeError] at the first event that is not a dict, there
    being no [get] on it. *)
Theorem event_that_is_no_dict_stops_rendering (machine : string)
  (ips : list string) (boot_iso : string)
  (crash : option (list (string * PyVal))) (block : string)
  (errors : PyVal) (good : list PyVal) (rows : list string) (bad : PyVal)
  (rest : list PyVal) (w : World) :
  crash_block crash = Ok block ->
  py_iter errors = Ok (good ++ bad :: rest)%list ->
  Forall2 (fun ev row => event_row ev = Ok row) good rows ->
  match bad with PDict _ => False | _ => True end ->
  make_html machine ips boot_iso crash errors w
  = (Raise (Exc (AttributeError bad "get")), w).
Proof.
  intros Hblock Hiter Hrows Hbad. unfold make_html. unfold_monad.
  destruct (fmt_dt_local_returns (PStr boot_iso)) as (boot_local & ->).
  rewrite Hblock, Hiter.
  rewrite (event_rows_stop EmptyString good rows bad rest
             (AttributeError bad "get") Hrows);
    [reflexivity|].
  destruct bad; try reflexivity. contradiction.
Qed.

(** ** The message of an event *)

Lemma mentions_append (c : ascii) (a b : string) :
  mentions c (a ++ b) = mentions c a || mentions c b.
Proof.
  induction a as [|x a IH]; [reflexivity|].
  change (mentions c (String x (a ++ b))
          = (Ascii.eqb x c || mentions c a) || mentions c b).
  simpl. rewrite IH, orb_assoc. reflexivity.
Qed.

Lemma mentions_replace_char (c d : ascii) (by_ s : string) :
  mentions d by_ = false ->
  mentions d (replace_char c by_ s)
  = if Ascii.eqb c d then false else mentions d s.
Proof.
  intros Hby. induction s as [|a s IH]; simpl.
  - destruct (Ascii.eqb c d); reflexivity.
  - destruct (Ascii.eqb a c) eqn:Eac.
    + rewrite mentions_append, Hby, IH. apply Ascii.eqb_eq in Eac. subst a.
      destruct (Ascii.eqb c d); reflexivity.
    + simpl. rewrite IH. destruct (Ascii.eqb c d) eqn:Ecd.
      * apply Ascii.eqb_eq in Ecd. subst d. rewrite Eac. reflexivity.
      * reflexivity.
Qed.

(** What follows a white-space character is a tail of the text. *)
Lemma space_head_tail (c : ascii) (s r : string) :
  space_head s = Some r -> mentions c r = true -> mentions c s = true.
Proof.
  destruct s as [|a s]; [discriminate|].
  unfold space_head. destruct (ascii_space a).
  - intros [= ->] Hr. simpl. rewrite Hr. apply orb_true_r.
  - destruct a as [[] [] [] [] [] [] [] []]; try discriminate;
      (destruct s as [|b [|b' s']]; simpl; try discriminate;
       repeat match goal with
              | |- (if ?x then _ else _) = _ -> _ => destruct x
              end;
       try discriminate;
       intros [= <-] Hr; cbn [mentions] in *;
       first [discriminate | rewrite Hr, ?orb_true_r; reflexivity]).
Qed.

Lemma mentions_lstrip_fuel (c : ascii) (fuel : nat) (s : string) :
  mentions c (lstrip_fuel fuel s) = true -> mentions c s = true.
Proof.
  revert s. induction fuel as [|fuel IH]; intros s; simpl; [auto|].
  destruct (space_head s) as [r|] eqn:E; [|auto].
  intros Hr. exact (space_head_tail c s r E (IH r Hr)).
Qed.

Lemma mentions_rstrip (c : ascii) (s : string) :
  mentions c (rstrip s) = true -> mentions c s = true.
Proof.
  induction s as [|a s IH]; [auto|].
  simpl. destruct (blank (String a s)); [discriminate|].
  simpl. intros Hc. apply orb_true_iff in Hc as [Hc|Hc].
  - rewrite Hc. reflexivity.
  - rewrite (IH Hc). apply orb_true_r.
Qed.

Lemma mentions_strip (c : ascii) (s : string) :
  mentions c (strip s) = true -> mentions c s = true.
Proof.
  unfold strip, lstrip. intros Hc.
  apply mentions_rstrip, mentions_lstrip_fuel in Hc. exact Hc.
Qed.

(** X18: the message of an event, as the report shows it.  Text comes
    out with no carriage return and no line feed in it; a message that
    is missing or falsy ([None], 0, an empty list) comes out as the
    empty text; a truthy message that is no text raises
    [AttributeError], there being no [replace] on it. *)
Theorem clean_message_is_one_line (fields : list (string * PyVal)) :
  match get_or "Message" PNone fields with
  | PStr s =>
      exists msg,
        clean_message fields = Ok msg
        /\ mentions (ascii_of_nat 13) msg = false
        /\ mentions (ascii_of_nat 10) msg = false
  | v =>
      clean_message fields
      = if truthy v then Err (AttributeError v "replace") else Ok EmptyString
  end.
Proof.
  unfold clean_message.
  destruct (get_or "Message" PNone fields) as [| b | n | x | s | items | d];
    try reflexivity.
  - destruct b; reflexivity.
  - destruct (truthy (PInt n)); reflexivity.
  - destruct (truthy (PFloat x)); reflexivity.
  - assert (Hclean : forall c,
      c = ascii_of_nat 13 \/ c = ascii_of_nat 10 ->
      mentions c (strip (replace_char (ascii_of_nat 10) " "
                           (replace_char (ascii_of_nat 13) " " s))) = false).
    { intros c Hc.
      destruct (mentions c (strip _)) eqn:E; [|reflexivity].
      apply mentions_strip in E.
      destruct Hc as [-> | ->];
        rewrite !mentions_replace_char in E by reflexivity;
        simpl in E; discriminate. }
    destruct (truthy (PStr s)) eqn:T.
    + eexists. split; [reflexivity|]. split; apply Hclean; auto.
    + simpl in T. apply negb_false_iff, String.eqb_eq in T. subst s.
      exists EmptyString. repeat split; reflexivity.
  - destruct items; reflexivity.
  - destruct d; reflexivity.
Qed.

(** ** How much the script does *)

Lemma fetched_bounds (ref_time : option string) (outcomes : list ProcOutcome) :
  (spawns (snd (fetched ref_time outcomes)) <= 2)%nat
  /\ sessions (snd (fetched ref_time outcomes)) = 0%nat.
Proof.
  unfold fetched, queries_on.
  destruct (build_query ref_time 6 10); [|split; [cbv; lia | reflexivity]].
  destruct (answer_of outcomes); split; try reflexivity; cbv; lia.
Qed.

(** X20: a run is bounded.  Whatever the world is like, the script
    ends (it returns, raises or exits) after at most five processes and
    at most three SMTP sessions. *)
Theorem script_is_bounded (w : World) :
  exists o done,
    does script w o done
    /\ (spawns done <= 5)%nat
    /\ (sessions done <= 3)%nat.
Proof.
  destruct (sender_of (environ w)) as [s|] eqn:Hs.
  - pose proof (main_does w s Hs) as Hmain. cbn zeta in Hmain.
    destruct (run_result boot_time_query (drop 1 (procs w))) as [boot_iso|r].
    2:{ pose proof (script_after_main w s _ _ Hs Hmain) as Hscript.
        destruct r as [e|msg]; eexists _, _; (split; [exact Hscript|]);
          cbv; lia. }
    destruct (reference_on (drop 2 (procs w))) as [[crash ref_time]|r].
    2:{ pose proof (script_after_main w s _ _ Hs Hmain) as Hscript.
        destruct r as [e|msg]; eexists _, _; (split; [exact Hscript|]);
          cbv; lia. }
    destruct (fetched_bounds ref_time (drop 3 (procs w))) as [Hp Hm].
    destruct (fst (make_html _ _ _ _ _ _)) as [html|r];
      pose proof (script_after_main w s _ _ Hs Hmain) as Hscript;
      [|destruct r as [e|msg]];
      eexists _, _; (split; [exact Hscript|]);
      rewrite ?spawns_app, ?sessions_app, Hm;
      remember (spawns (snd (fetched ref_time (drop 3 (procs w))))) as q;
      destruct (fst (fetched ref_time (drop 3 (procs w))));
      try destruct (DEBUG w); unfold spawns, sessions; simpl; lia.
  - exists (Raise (SystemExit
                     "EMAIL_ADDRESS/EMAIL_PASSWORD not set in environment.")),
      [].
    split; [|cbv; lia]. exists w. split; [|apply advances_refl].
    unfold script, try_except. rewrite (main_without_client w Hs). reflexivity.
Qed.

End More.

(** * More runs on the reference platform *)

Section RunsOnReference.

#[local] Existing Instance Reference.interpreter.

(** No credentials: the script exits at once. *)
Lemma no_credentials_witness :
  script Reference.unconfigured
  = (Raise (SystemExit "EMAIL_ADDRESS/EMAIL_PASSWORD not set in environment."),
     Reference.unconfigured).
Proof.
  apply (no_credentials_exit_unreported Reference.unconfigured).
  reflexivity.
Defined.

(** PowerShell fails on the query for the boot time. *)
Lemma boot_time_failure_witness :
  does script Reference.no_boot_time
       (Raise (Exc (powershell_failed boot_time_query
                      "PS_ERR:System.Management.Automation.RuntimeException | failed"
                      EmptyString)))
       [Spawned (ps_argv ipv4_query); Spawned (ps_argv boot_time_query);
        session_of Reference.client
          (report_mail Reference.client
             (powershell_failed boot_time_query
                "PS_ERR:System.Management.Automation.RuntimeException | failed"
                EmptyString))].
Proof.
  apply (boot_time_failure_is_fatal Reference.no_boot_time Reference.client);
    vm_compute; reflexivity.
Defined.

(** PowerShell fails on the query for the crash marker. *)
Lemma crash_marker_failure_witness :
  does script Reference.no_crash_query
       (Raise (Exc (powershell_failed crash_query
                      "PS_ERR:System.Management.Automation.RuntimeException | failed"
                      EmptyString)))
       [Spawned (ps_argv ipv4_query); Spawned (ps_argv boot_time_query);
        Spawned (ps_argv crash_query);
        session_of Reference.client
          (report_mail Reference.client
             (powershell_failed crash_query
                "PS_ERR:System.Management.Automation.RuntimeException | failed"
                EmptyString))].
Proof.
  apply (crash_marker_failure_is_fatal Reference.no_crash_query
           Reference.client Reference.boot_time);
    vm_compute; reflexivity.
Defined.

(** The quiet boot: four processes, one mail. *)
Lemma healthy_run_witness :
  exists html,
    does script (Reference.quiet_boot [None]) (Ret tt)
         ([Spawned (ps_argv ipv4_query); Spawned (ps_argv boot_time_query);
           Spawned (ps_argv crash_query)]
          ++ [Spawned (ps_argv (recent_query 10))]
          ++ (if DEBUG (Reference.quiet_boot [None])
              then [session_of Reference.client
                      (probe_mail Reference.client
                         (machine_of (Reference.quiet_boot [None]))
                         (addresses (environ (Reference.quiet_boot [None]))
                                    (procs (Reference.quiet_boot [None]))))]
              else [])
          ++ [session_of Reference.client
                (boot_mail Reference.client
                   (boot_subject
                      (machine_of (Reference.quiet_boot [None]))
                      (addresses (environ (Reference.quiet_boot [None]))
                                 (procs (Reference.quiet_boot [None]))))
                   html)]).
Proof.
  eexists.
  apply (healthy_run_sends_boot_mail (Reference.quiet_boot [None])
           Reference.client Reference.boot_time None None (PList [])
           [Spawned (ps_argv (recent_query 10))]);
    reflexivity.
Defined.

(** The windowed query fails and the fallback answers. *)
Lemma recent_errors_first_answer_witness :
  does (get_recent_errors_near (Some Reference.reference_time) 6 10)
       Reference.unanswered
       (Ret match answer_of (drop 1 (procs Reference.unanswered)) with
            | Some events => events
            | None => PList []
            end)
       [Spawned (ps_argv (window_query_text Reference.reference_time 6 10));
        Spawned (ps_argv (recent_query 10))].
Proof.
  apply (recent_errors_are_the_first_answer (Some Reference.reference_time)
           6 10 (window_query_text Reference.reference_time 6 10)
           Reference.unanswered).
  vm_compute. reflexivity.
Defined.

(** A reference time that is nothing but the field. *)
Lemma hours_field_witness :
  window_query (EmptyString ++ "{hrs}" ++ EmptyString) 6 10
  = Ok (window_query_text (EmptyString ++ of_int 6 ++ EmptyString) 6 10).
Proof.
  apply (hours_field_in_reference_time_is_filled EmptyString EmptyString 6 10);
    reflexivity.
Defined.

(** Two events, two rows. *)
Lemma events_table_witness :
  match make_html "HOST1" ["10.0.0.5"] Reference.boot_time None
                  (PList Reference.two_events) (Reference.quiet_boot [None])
  with
  | (Ret html, w') =>
      w' = Reference.quiet_boot [None] /\
      exists head,
        html = head ++ table_head
               ++ join EmptyString
                    (map (fun ev => match event_row ev with
                                    | Ok row => row
                                    | Err _ => EmptyString
                                    end) Reference.two_events)
               ++ table_foot
  | (Raise (Exc e), _) => crash_block None = Err e
  | (Raise (SystemExit _), _) => False
  end.
Proof.
  apply (events_table_has_one_row_per_event "HOST1" ["10.0.0.5"]
           Reference.boot_time None (PList Reference.two_events)
           (hd PNone Reference.two_events) (tl Reference.two_events)).
  - reflexivity.
  - repeat constructor.
Defined.

(** A number among the events. *)
Lemma event_that_is_no_dict_witness :
  make_html "HOST1" ["10.0.0.5"] Reference.boot_time None
            (PList [PInt 1; PInt 2]) (Reference.quiet_boot [None])
  = (Raise (Exc (AttributeError (PInt 1) "get")), Reference.quiet_boot [None]).
Proof.
  apply (event_that_is_no_dict_stops_rendering "HOST1" ["10.0.0.5"]
           Reference.boot_time None EmptyString (PList [PInt 1; PInt 2])
           [] [] (PInt 1) [PInt 2] (Reference.quiet_boot [None])).
  - reflexivity.
  - reflexivity.
  - constructor.
  - exact I.
Defined.

End RunsOnReference.

(** * Runs on a host that prints plain JSON *)

Section RunsOnPlainJson.

#[local] Existing Instance Reference.plain_json.

(** A list of numbers for events: the report cannot be rendered. *)
Lemma rendering_failure_witness :
  does script Reference.listed_boot
       (Raise (Exc (AttributeError (PInt 1) "get")))
       ([Spawned (ps_argv ipv4_query); Spawned (ps_argv boot_time_query);
         Spawned (ps_argv crash_query)]
        ++ [Spawned (ps_argv (recent_query 10))]
        ++ [session_of Reference.client
              (report_mail Reference.client (AttributeError (PInt 1) "get"))]).
Proof.
  apply (rendering_failure_is_fatal Reference.listed_boot Reference.client
           Reference.boot_time None None (PList [PInt 1; PInt 2])
           [Spawned (ps_argv (recent_query 10))]);
    vm_compute; reflexivity.
Defined.

(** A number for events: it has no length; the boot mail goes out with
    no events. *)
Lemma fetch_failure_witness :
  exists html,
    does script Reference.numbered_boot (Ret tt)
         ([Spawned (ps_argv ipv4_query); Spawned (ps_argv boot_time_query);
           Spawned (ps_argv crash_query)]
          ++ [Spawned (ps_argv (recent_query 10))]
          ++ [session_of Reference.client
                (report_mail Reference.client
                   (Exn "TypeError" "object of type 'int' has no len()"))]
          ++ (if DEBUG Reference.numbered_boot
              then [session_of Reference.client
                      (probe_mail Reference.client
                         (machine_of Reference.numbered_boot)
                         (addresses (environ Reference.numbered_boot)
                                    (procs Reference.numbered_boot)))]
              else [])
          ++ [session_of Reference.client
                (boot_mail Reference.client
                   (boot_subject
                      (machine_of Reference.numbered_boot)
                      (addresses (environ Reference.numbered_boot)
                                 (procs Reference.numbered_boot)))
                   html)]).
Proof.
  eexists.
  apply (fetch_failure_is_reported_and_absorbed Reference.numbered_boot
           Reference.client Reference.boot_time None None
           [Spawned (ps_argv (recent_query 10))]
           (Exn "TypeError" "object of type 'int' has no len()"));
    reflexivity.
Defined.

(** A crash marker of the time 5 is returned, and stops the run; the
    brackets make [json.loads] raise [RecursionError], which is raised
    on. *)
Lemma marker_time_witness :
  (get_latest_crash_marker Reference.marker_of_5
   = (Ret (Some [("TimeCreated", PInt 5)]),
      snd (run_ps crash_query Reference.marker_of_5))
   /\ marker_time (Some [("TimeCreated", PInt 5)])
      = Err (Exn "TypeError"
                 ("can only concatenate str (not " ++ dq ++ "int" ++ dq
                  ++ ") to str")))
  /\ fst (script Reference.marker_of_5_boot)
     = Raise (Exc (Exn "TypeError"
                       ("can only concatenate str (not " ++ dq ++ "int" ++ dq
                        ++ ") to str")))
  /\ fst (get_latest_crash_marker Reference.marker_of_brackets)
     = Raise (Exc (Exn "RecursionError"
                       "maximum recursion depth exceeded while decoding a JSON array from a unicode string")).
Proof.
  split; [|split].
  - apply (proj1 (marker_time_need_not_be_text Reference.marker_of_5)
             Reference.numbered_marker
             (snd (run_ps crash_query Reference.marker_of_5))
             [("TimeCreated", PInt 5)] (PInt 5));
      try (vm_compute; reflexivity).
    intros s. discriminate.
  - vm_compute. reflexivity.
  - rewrite (proj2 (marker_time_need_not_be_text Reference.marker_of_brackets)
               Reference.brackets
               (snd (run_ps crash_query Reference.marker_of_brackets))
               (Exn "RecursionError"
                    "maximum recursion depth exceeded while decoding a JSON array from a unicode string"));
      try (vm_compute; reflexivity).
Defined.

(** The number comes back as it is. *)
Lemma recent_errors_shape_witness :
  fst (get_recent_errors_near None 6 10
         (Reference.world Reference.configured [Reference.done "5"] []))
  = Ret (PInt 5)
  /\ truthy (PInt 5) = true.
Proof.
  split; [reflexivity|].
  apply (recent_errors_shape None 6 10
           (Reference.world Reference.configured [Reference.done "5"] [])
           (PInt 5)).
  reflexivity.
Defined.

End RunsOnPlainJson.
